(** * SMM panel: wallet, orders and transaction ledger

    A shallow embedding of the REST handlers of the panel (users, orders,
    transactions, auth/me) and of the three client flows that orchestrate
    them (placing an order, adjusting a balance, refunding an order),
    followed by the properties of the wallet-ledger specification checked
    against them.

    JavaScript numbers are IEEE 754 binary64 values: they are Rocq's
    primitive floats.  Request bodies and responses are JSON values.  The
    database is an in-memory image of the SQLite tables of the migration:
    one list of rows per table, in rowid order. *)

From Stdlib Require Import ZArith List String Ascii Bool Lia.
From Stdlib Require Import Floats DecimalString.
From Stdlib Require Import Sorting.Sorted Permutation.
Import ListNotations.

Set Warnings "-inexact-float,-register-all".

Local Open Scope string_scope.
Local Open Scope Z_scope.

(** ** JavaScript values *)

Module Js.

(** A value as [request.json()] or a property read can produce it. *)
Inductive JsVal : Type :=
| JUndef
| JNull
| JBool (b : bool)
| JNum (x : float)
| JStr (s : string)
| JArr (l : list JsVal)
| JObj (fields : list (string * JsVal)).

(** [!v] is [negb (truthy v)]. *)
Definition truthy (v : JsVal) : bool :=
  match v with
  | JUndef | JNull => false
  | JBool b => b
  | JNum x => negb (PrimFloat.eqb x 0 || PrimFloat.is_nan x)
  | JStr s => negb (String.eqb s "")
  | JArr _ | JObj _ => true
  end.

(** [v === undefined || v === null] *)
Definition nullish (v : JsVal) : bool :=
  match v with JUndef | JNull => true | _ => false end.

Definition is_undefined (v : JsVal) : bool :=
  match v with JUndef => true | _ => false end.

(** [typeof v === 'string'] *)
Definition is_string (v : JsVal) : bool :=
  match v with JStr _ => true | _ => false end.

(** [v === 0]: strict equality with the number zero (either sign). *)
Definition strict_eq_zero (v : JsVal) : bool :=
  match v with JNum x => PrimFloat.eqb x 0 | _ => false end.

(** [list.includes(v)] for a list of string constants. *)
Definition includes (l : list string) (v : JsVal) : bool :=
  match v with JStr s => existsb (String.eqb s) l | _ => false end.

Fixpoint assoc {A : Type} (k : string) (l : list (string * A)) : option A :=
  match l with
  | [] => None
  | (k', a) :: r => if String.eqb k' k then Some a else assoc k r
  end.

(** The property read [v.k] for a key that no prototype defines: the
    field of an object, [undefined] on any other value that is not
    [null] or [undefined]. *)
Definition prop (k : string) (v : JsVal) : JsVal :=
  match v with
  | JObj fs => match assoc k fs with Some a => a | None => JUndef end
  | _ => JUndef
  end.

(** [k] occurs as a key at some depth of [v]. *)
Fixpoint has_key (k : string) (v : JsVal) : bool :=
  match v with
  | JArr l => existsb (has_key k) l
  | JObj fs =>
      existsb (fun kv => String.eqb (fst kv) k || has_key k (snd kv)) fs
  | _ => false
  end.

(** *** Strings (ASCII) *)

Definition is_space (c : ascii) : bool :=
  let n := nat_of_ascii c in
  (Nat.eqb n 32 || (Nat.leb 9 n && Nat.leb n 13))%bool.

Fixpoint trimStart (s : string) : string :=
  match s with
  | EmptyString => EmptyString
  | String c r => if is_space c then trimStart r else s
  end.

Definition rev_string (s : string) : string :=
  string_of_list_ascii (rev (list_ascii_of_string s)).

Definition trim (s : string) : string :=
  rev_string (trimStart (rev_string (trimStart s))).

Definition map_string (f : ascii -> ascii) (s : string) : string :=
  string_of_list_ascii (map f (list_ascii_of_string s)).

Definition upper_ascii (c : ascii) : ascii :=
  let n := nat_of_ascii c in
  if (Nat.leb 97 n && Nat.leb n 122)%bool then ascii_of_nat (n - 32) else c.

Definition lower_ascii (c : ascii) : ascii :=
  let n := nat_of_ascii c in
  if (Nat.leb 65 n && Nat.leb n 90)%bool then ascii_of_nat (n + 32) else c.

Definition toUpperCase : string -> string := map_string upper_ascii.
Definition toLowerCase : string -> string := map_string lower_ascii.

(** *** Numbers *)

(** An integer as a JavaScript number (round to nearest, ties to even). *)
Definition Z2float (z : Z) : float :=
  SF2Prim (binary_normalize prec emax z 0 false).

(** The integer part of a finite number. *)
Definition trunc (x : float) : option Z :=
  match Prim2SF x with
  | S754_zero _ => Some 0
  | S754_finite s m e =>
      let a := if 0 <=? e then Z.shiftl (Zpos m) e
               else Z.shiftr (Zpos m) (- e) in
      Some (if s then - a else a)
  | S754_nan | S754_infinity _ => None
  end.

(** What [JSON.stringify] followed by [JSON.parse] leaves of a number:
    [null] for NaN and the infinities, [0] for either zero. *)
Definition json_number (x : float) : JsVal :=
  if (PrimFloat.is_nan x || PrimFloat.is_infinity x)%bool then JNull
  else if PrimFloat.eqb x 0 then JNum 0 else JNum x.

(** [JSON.parse(JSON.stringify(v))]: what a value is once it has crossed
    the wire.  Fields holding [undefined] are dropped, [undefined] in an
    array becomes [null]. *)
Fixpoint json (v : JsVal) : JsVal :=
  match v with
  | JNum x => json_number x
  | JArr l =>
      JArr (map (fun e => match json e with JUndef => JNull | w => w end) l)
  | JObj fs =>
      JObj (flat_map (fun kv => match json (snd kv) with
                                | JUndef => []
                                | w => [(fst kv, w)]
                                end) fs)
  | _ => v
  end.

(** The keys of an object literal are distinct. *)
Fixpoint distinct (keys : list string) : bool :=
  match keys with
  | [] => true
  | k :: r => negb (existsb (String.eqb k) r) && distinct r
  end.

(** *** The host's conversions

    [parseInt], [parseFloat], [ToString], [ToNumber], bcrypt and SQL's
    [LIKE] belong to the platform, not to the repository.  The handlers
    are written against this interface, and the theorems hold for every
    implementation of it.  The three laws are the part of ECMAScript the
    proofs use. *)
Class Runtime : Type := {
  (** [parseInt(v)]: [None] is NaN. *)
  parseInt : JsVal -> option Z;
  parseFloat : JsVal -> float;
  toString : JsVal -> string;
  toNumber : JsVal -> float;
  (** [await bcrypt.hash(password, 10)] *)
  bcrypt_hash : string -> string;
  (** [value LIKE pattern] *)
  sql_like : string -> string -> bool;
  (** [parseFloat] reads a number back from its own decimal form:
      the number itself, the sign of zero apart. *)
  parseFloat_number :
    forall x, parseFloat (JNum x) = if PrimFloat.eqb x 0 then 0%float else x;
  toNumber_number : forall x, toNumber (JNum x) = x;
  toString_string : forall s, toString (JStr s) = s
}.

(** [isNaN(parseInt(v))] *)
Definition isNaN_int (n : option Z) : bool :=
  match n with None => true | Some _ => false end.

(** *** Exceptions and early returns *)

(** The result of evaluating an expression: a value, or a thrown
    [TypeError]. *)
Inductive Exn (A : Type) : Type :=
| Val (a : A)
| Thrown.
Arguments Val {A} a.
Arguments Thrown {A}.

(** [v.trim()], [v.toUpperCase()], [v.toLowerCase()]: defined on strings
    only; on any other JSON value the method is missing and the call
    throws. *)
Definition method (f : string -> string) (v : JsVal) : Exn string :=
  match v with JStr s => Val (f s) | _ => Thrown end.

(** [v.length] *)
Definition length_of (v : JsVal) : Exn JsVal :=
  match v with
  | JUndef | JNull => Thrown
  | JStr s => Val (JNum (Z2float (Z.of_nat (String.length s))))
  | JArr l => Val (JNum (Z2float (Z.of_nat (List.length l))))
  | JObj _ => Val (prop "length" v)
  | JBool _ | JNum _ => Val JUndef
  end.

End Js.
Export Js.

(** ** The database *)

Module Schema.

(** Rows of the tables [users], [services], [orders] and [transactions]
    (columns as the drizzle schema names them).  A [real] column is a
    float, an [integer] column an integer, a nullable column an option. *)

Record User : Type := mkUser {
  user_id : Z;
  user_email : string;
  user_password : string;
  user_name : string;
  user_role : string;
  user_balance : float;
  user_apiKey : option string;
  user_status : string;
  user_createdAt : string;
  user_updatedAt : string
}.

Record Service : Type := mkService {
  service_id : Z;
  service_name : string;
  service_category : string;
  service_type : string;
  service_description : option string;
  service_rate : float;
  service_minOrder : Z;
  service_maxOrder : Z;
  service_providerId : option Z;
  service_status : string;
  service_createdAt : string;
  service_updatedAt : string
}.

Record Order : Type := mkOrder {
  order_id : Z;
  order_userId : Z;
  order_serviceId : Z;
  order_link : string;
  order_quantity : Z;
  order_charge : float;
  order_startCount : option Z;
  order_remains : option Z;
  order_status : string;
  order_providerOrderId : option string;
  order_createdAt : string;
  order_updatedAt : string
}.

Record Transaction : Type := mkTransaction {
  tx_id : Z;
  tx_userId : Z;
  tx_type : string;
  tx_amount : float;
  tx_balanceBefore : float;
  tx_balanceAfter : float;
  tx_description : string;
  tx_orderId : option Z;
  tx_createdAt : string
}.

(** The store: each table in rowid order, with the next rowid of its
    [AUTOINCREMENT] key. *)
Record Db : Type := mkDb {
  users : list User;
  next_user : Z;
  services : list Service;
  orders : list Order;
  next_order : Z;
  transactions : list Transaction;
  next_transaction : Z
}.

Definition empty_db : Db := mkDb [] 1 [] [] 1 [] 1.

Definition set_users (us : list User) (n : Z) (db : Db) : Db :=
  mkDb us n (services db) (orders db) (next_order db)
       (transactions db) (next_transaction db).

Definition set_orders (os : list Order) (n : Z) (db : Db) : Db :=
  mkDb (users db) (next_user db) (services db) os n
       (transactions db) (next_transaction db).

Definition set_transactions (ts : list Transaction) (n : Z) (db : Db) : Db :=
  mkDb (users db) (next_user db) (services db) (orders db) (next_order db)
       ts n.

(** *** JSON images of rows, as [db.select()] returns them *)

Definition opt_string (o : option string) : JsVal :=
  match o with Some s => JStr s | None => JNull end.

Definition opt_int (o : option Z) : JsVal :=
  match o with Some z => JNum (Z2float z) | None => JNull end.

Definition user_row (u : User) : JsVal :=
  JObj [ ("id", JNum (Z2float (user_id u)));
         ("email", JStr (user_email u));
         ("password", JStr (user_password u));
         ("name", JStr (user_name u));
         ("role", JStr (user_role u));
         ("balance", JNum (user_balance u));
         ("apiKey", opt_string (user_apiKey u));
         ("status", JStr (user_status u));
         ("createdAt", JStr (user_createdAt u));
         ("updatedAt", JStr (user_updatedAt u)) ].

Definition order_row (o : Order) : JsVal :=
  JObj [ ("id", JNum (Z2float (order_id o)));
         ("userId", JNum (Z2float (order_userId o)));
         ("serviceId", JNum (Z2float (order_serviceId o)));
         ("link", JStr (order_link o));
         ("quantity", JNum (Z2float (order_quantity o)));
         ("charge", JNum (order_charge o));
         ("startCount", opt_int (order_startCount o));
         ("remains", opt_int (order_remains o));
         ("status", JStr (order_status o));
         ("providerOrderId", opt_string (order_providerOrderId o));
         ("createdAt", JStr (order_createdAt o));
         ("updatedAt", JStr (order_updatedAt o)) ].

Definition transaction_row (t : Transaction) : JsVal :=
  JObj [ ("id", JNum (Z2float (tx_id t)));
         ("userId", JNum (Z2float (tx_userId t)));
         ("type", JStr (tx_type t));
         ("amount", JNum (tx_amount t));
         ("balanceBefore", JNum (tx_balanceBefore t));
         ("balanceAfter", JNum (tx_balanceAfter t));
         ("description", JStr (tx_description t));
         ("orderId", opt_int (tx_orderId t));
         ("createdAt", JStr (tx_createdAt t)) ].

(** *** Queries *)

(** [.where(eq(table.id, n)).limit(1)] *)
Definition find_by {A : Type} (key : A -> Z) (n : Z) (rows : list A)
  : option A :=
  find (fun r => key r =? n) rows.

(** [.orderBy(desc(column))] on a text column: SQLite compares the bytes.
    Rows with equal keys keep their rowid order. *)
Fixpoint insert_desc {A : Type} (key : A -> string) (x : A) (l : list A)
  : list A :=
  match l with
  | [] => [x]
  | y :: r =>
      if String.leb (key y) (key x) then x :: l
      else y :: insert_desc key x r
  end.

Definition orderBy_desc {A : Type} (key : A -> string) (l : list A)
  : list A :=
  fold_right (insert_desc key) [] l.

(** [Math.min(n, 100)], NaN being [None]. *)
Definition Math_min (n : option Z) (m : Z) : option Z :=
  match n with Some k => Some (Z.min k m) | None => None end.

(** [.limit(limit).offset(offset)].  The clause [LIMIT n] bounds the
    result when [n] is a number that is not negative; a negative limit
    (SQLite's "no upper bound") and NaN leave the result unbounded.
    [OFFSET m] skips [m] rows when [m] is positive. *)
Definition paginate {A : Type} (limit offset : option Z) (rows : list A)
  : list A :=
  let rest :=
    match offset with
    | Some m => if 0 <? m then skipn (Z.to_nat m) rows else rows
    | None => rows
    end in
  match limit with
  | Some n => if 0 <=? n then firstn (Z.to_nat n) rest else rest
  | None => rest
  end.

(** [.update(table).set(...).where(eq(table.id, n))] *)
Definition update_where {A : Type} (key : A -> Z) (n : Z) (f : A -> A)
  (rows : list A) : list A :=
  map (fun r => if key r =? n then f r else r) rows.

(** [.delete(table).where(eq(table.id, n))] *)
Definition delete_where {A : Type} (key : A -> Z) (n : Z) (rows : list A)
  : list A :=
  filter (fun r => negb (key r =? n)) rows.

End Schema.
Export Schema.

(** ** Requests and responses *)

Module Http.

Record Response : Type := mkResponse {
  status : Z;
  body : JsVal
}.

(** [NextResponse.json(v, { status })]: the caller receives [v] as JSON. *)
Definition respond (v : JsVal) (st : Z) : Response := mkResponse st (json v).

Definition error_body (msg code : string) : JsVal :=
  JObj [("error", JStr msg); ("code", JStr code)].

Definition bad_request (msg code : string) : Response :=
  respond (error_body msg code) 400.

Definition not_found (msg code : string) : Response :=
  respond (error_body msg code) 404.

(** The [catch] branch of every handler.  The text of [error.message]
    is the engine's and is left out. *)
Definition internal_error : Response :=
  respond (JObj [("error", JStr "Internal server error")]) 500.

(** [response.ok] *)
Definition ok (r : Response) : bool :=
  (200 <=? status r) && (status r <=? 299).

(** The query string.  [searchParams.get(k)] is the first value of [k],
    or [null]. *)
Definition Query : Type := list (string * string).

Definition get (k : string) (q : Query) : JsVal :=
  match assoc k q with Some s => JStr s | None => JNull end.

(** [v ?? d] *)
Definition coalesce (v d : JsVal) : JsVal := if nullish v then d else v.

(** A handler's body runs to its end, returns early, or throws. *)
Inductive Outcome (A : Type) : Type :=
| Next (a : A)
| Reply (r : Response)
| Raise.
Arguments Next {A} a.
Arguments Reply {A} r.
Arguments Raise {A}.

Definition bind {A B : Type} (c : Outcome A) (k : A -> Outcome B)
  : Outcome B :=
  match c with
  | Next a => k a
  | Reply r => Reply r
  | Raise => Raise
  end.

Declare Scope handler_scope.
Delimit Scope handler_scope with handler.

Notation "x <- c ;; k" := (bind c (fun x => k))
  (at level 61, c at next level, right associativity) : handler_scope.
Notation "c ;; k" := (bind c (fun _ => k))
  (at level 61, right associativity) : handler_scope.

(** [if (c) return r;] *)
Definition reject_if (c : bool) (r : Response) : Outcome unit :=
  if c then Reply r else Next tt.

(** [if (isNaN(n)) return r;] for [n = parseInt(...)], keeping [n]. *)
Definition int_or (n : option Z) (r : Response) : Outcome Z :=
  match n with Some k => Next k | None => Reply r end.

(** A row a query found, or the early return for an empty result. *)
Definition found {A : Type} (o : option A) (r : Response) : Outcome A :=
  match o with Some a => Next a | None => Reply r end.

Definition eval {A : Type} (e : Exn A) : Outcome A :=
  match e with Val a => Next a | Thrown => Raise end.

(** [const { ... } = body]: destructuring [null] or [undefined] throws. *)
Definition destructure (b : JsVal) : Outcome unit :=
  if nullish b then Raise else Next tt.

(** [try { ... } catch { return 500 }] around a body that ends with a
    response and the store it leaves. *)
Definition handle (db : Db) (o : Outcome (Response * Db)) : Response * Db :=
  match o with
  | Next rd => rd
  | Reply r => (r, db)
  | Raise => (internal_error, db)
  end.

End Http.
Export Http.

(** ** The users endpoint ([/api/users]) and [/api/auth/me] *)

Module Users.

Local Open Scope handler_scope.

(** [/^[^\s@]+@[^\s@]+\.[^\s@]+$/.test(s)]: one [@], a non-empty local
    part, and a dot inside the domain, neither first nor last; no white
    space anywhere. *)
Definition plain (c : ascii) : bool :=
  negb (is_space c || Ascii.eqb c "@").

Fixpoint split_at (c : ascii) (l : list ascii)
  : option (list ascii * list ascii) :=
  match l with
  | [] => None
  | d :: r =>
      if Ascii.eqb d c then Some ([], r)
      else match split_at c r with
           | Some (a, b) => Some (d :: a, b)
           | None => None
           end
  end.

Definition isValidEmail (email : string) : bool :=
  match split_at "@" (list_ascii_of_string email) with
  | Some (local, domain) =>
      negb (Nat.eqb (List.length local) 0)
      && forallb plain local && forallb plain domain
      && existsb (Ascii.eqb ".") (removelast (tl domain))
  | None => false
  end.

(** [const { password, ...userWithoutPassword } = user]; it is applied
    to rows, which are objects. *)
Definition excludePassword (user : JsVal) : JsVal :=
  match user with
  | JObj fs =>
      JObj (filter (fun kv => negb (String.eqb (fst kv) "password")) fs)
  | _ => JObj []
  end.

Definition ROLES : list string := ["USER"; "ADMIN"].
Definition STATUSES : list string := ["ACTIVE"; "SUSPENDED"; "BANNED"].

Definition invalid_role : Response :=
  bad_request "Invalid role. Must be USER or ADMIN" "INVALID_ROLE".
Definition invalid_status : Response :=
  bad_request "Invalid status. Must be ACTIVE, SUSPENDED, or BANNED"
              "INVALID_STATUS".
Definition invalid_balance : Response :=
  bad_request "Balance must be a non-negative number" "INVALID_BALANCE".
Definition invalid_id : Response :=
  bad_request "Valid ID is required" "INVALID_ID".
Definition user_not_found : Response :=
  not_found "User not found" "USER_NOT_FOUND".
Definition invalid_email : Response :=
  bad_request "Invalid email format" "INVALID_EMAIL_FORMAT".
Definition password_too_short : Response :=
  bad_request "Password must be at least 6 characters" "PASSWORD_TOO_SHORT".
Definition email_exists : Response :=
  bad_request "Email already exists" "EMAIL_EXISTS".

(** The fields a [PUT] sets; [updatedAt] is always set. *)
Record UpdateData : Type := mkUpdateData {
  set_name : option string;
  set_email : option string;
  set_password : option string;
  set_role : option string;
  set_status : option string;
  set_balance : option float;
  set_apiKey : option (option string)
}.

Definition or_keep {A : Type} (o : option A) (a : A) : A :=
  match o with Some b => b | None => a end.

Definition apply_update (d : UpdateData) (now : string) (u : User) : User :=
  mkUser (user_id u)
         (or_keep (set_email d) (user_email u))
         (or_keep (set_password d) (user_password u))
         (or_keep (set_name d) (user_name u))
         (or_keep (set_role d) (user_role u))
         (or_keep (set_balance d) (user_balance u))
         (or_keep (set_apiKey d) (user_apiKey u))
         (or_keep (set_status d) (user_status u))
         (user_createdAt u)
         now.

Section Handlers.
Context {R : Runtime}.

(** [isNaN(parseFloat(balance)) || parseFloat(balance) < 0] *)
Definition bad_balance (balance : JsVal) : bool :=
  (PrimFloat.is_nan (parseFloat balance)
   || PrimFloat.ltb (parseFloat balance) 0)%bool.

(** [password.length < 6] *)
Definition too_short (password : JsVal) : Outcome bool :=
  len <- eval (length_of password) ;;
  Next (PrimFloat.ltb (toNumber len) 6).

(** [await bcrypt.hash(password, 10)]: bcrypt refuses what is not a
    string. *)
Definition hash (password : JsVal) : Outcome string :=
  eval (method bcrypt_hash password).

(** [role.toUpperCase()] checked against the allowed constants. *)
Definition one_of (allowed : list string) (v : JsVal) (r : Response)
  : Outcome string :=
  up <- eval (method toUpperCase v) ;;
  reject_if (negb (includes allowed (JStr up))) r ;;
  Next up.

Definition GET_one (id : JsVal) (db : Db) : Outcome (Response * Db) :=
  reject_if (negb (truthy id)) invalid_id ;;
  n <- int_or (parseInt id) invalid_id ;;
  user <- found (find_by user_id n (users db)) user_not_found ;;
  Next (respond (excludePassword (user_row user)) 200, db).

Definition GET_list (q : Query) (db : Db) : Outcome (Response * Db) :=
  let limit := Math_min (parseInt (coalesce (get "limit" q) (JStr "10"))) 100 in
  let offset := parseInt (coalesce (get "offset" q) (JStr "0")) in
  let search := get "search" q in
  let role := get "role" q in
  let status := get "status" q in
  let by_search (u : User) :=
    if truthy search then
      let pattern := "%" ++ toString search ++ "%" in
      (sql_like pattern (user_name u) || sql_like pattern (user_email u))%bool
    else true in
  by_role <-
    (if truthy role then
       up <- one_of ROLES role invalid_role ;;
       Next (fun u => String.eqb (user_role u) up)
     else Next (fun _ => true)) ;;
  by_status <-
    (if truthy status then
       up <- one_of STATUSES status invalid_status ;;
       Next (fun u => String.eqb (user_status u) up)
     else Next (fun _ => true)) ;;
  let results :=
    paginate limit offset
      (orderBy_desc user_createdAt
         (filter (fun u => by_search u && by_role u && by_status u)
                 (users db))) in
  Next (respond (JArr (map (fun u => excludePassword (user_row u)) results))
                200, db).

Definition GET (q : Query) (db : Db) : Response * Db :=
  handle db
    (let id := get "id" q in
     if truthy id then GET_one id db else GET_list q db).

Definition POST (body : JsVal) (now : string) (db : Db) : Response * Db :=
  handle db
    (destructure body ;;
     let email := prop "email" body in
     let password := prop "password" body in
     let name := prop "name" body in
     let role := prop "role" body in
     let status := prop "status" body in
     let balance := prop "balance" body in
     reject_if (negb (truthy email))
       (bad_request "Email is required" "MISSING_EMAIL") ;;
     reject_if (negb (truthy password))
       (bad_request "Password is required" "MISSING_PASSWORD") ;;
     reject_if (negb (truthy name))
       (bad_request "Name is required" "MISSING_NAME") ;;
     trimmed <- eval (method trim email) ;;
     reject_if (negb (isValidEmail trimmed)) invalid_email ;;
     short <- too_short password ;;
     reject_if short password_too_short ;;
     (if truthy role then (_ <- one_of ROLES role invalid_role ;; Next tt)
      else Next tt) ;;
     (if truthy status then
        (_ <- one_of STATUSES status invalid_status ;; Next tt)
      else Next tt) ;;
     reject_if (negb (is_undefined balance) && bad_balance balance)
       invalid_balance ;;
     lowered <- eval (method toLowerCase email) ;;
     let address := trim lowered in
     reject_if
       (existsb (fun u => String.eqb (user_email u) address) (users db))
       email_exists ;;
     hashedPassword <- hash password ;;
     name' <- eval (method trim name) ;;
     role' <- (if truthy role then eval (method toUpperCase role)
               else Next "USER") ;;
     status' <- (if truthy status then eval (method toUpperCase status)
                 else Next "ACTIVE") ;;
     let newUser :=
       mkUser (next_user db) address hashedPassword name' role'
              (if is_undefined balance then 0%float else parseFloat balance)
              None status' now now in
     Next (respond (excludePassword (user_row newUser)) 201,
           set_users (users db ++ [newUser]) (next_user db + 1) db)).

Definition PUT (q : Query) (body : JsVal) (now : string) (db : Db)
  : Response * Db :=
  handle db
    (let id := get "id" q in
     reject_if (negb (truthy id)) invalid_id ;;
     n <- int_or (parseInt id) invalid_id ;;
     _ <- found (find_by user_id n (users db)) user_not_found ;;
     destructure body ;;
     let name := prop "name" body in
     let email := prop "email" body in
     let password := prop "password" body in
     let role := prop "role" body in
     let status := prop "status" body in
     let balance := prop "balance" body in
     let apiKey := prop "apiKey" body in
     name' <-
       (if is_undefined name then Next None
        else
          t <- eval (method trim name) ;;
          reject_if (String.eqb t "")
            (bad_request "Name cannot be empty" "INVALID_NAME") ;;
          Next (Some t)) ;;
     email' <-
       (if is_undefined email then Next None
        else
          t <- eval (method trim email) ;;
          reject_if (negb (isValidEmail t)) invalid_email ;;
          lowered <- eval (method toLowerCase email) ;;
          let address := trim lowered in
          reject_if
            (match find (fun u => String.eqb (user_email u) address)
                        (users db) with
             | Some other => negb (user_id other =? n)
             | None => false
             end)
            email_exists ;;
          Next (Some address)) ;;
     password' <-
       (if is_undefined password then Next None
        else
          short <- too_short password ;;
          reject_if short password_too_short ;;
          h <- hash password ;;
          Next (Some h)) ;;
     role' <-
       (if is_undefined role then Next None
        else up <- one_of ROLES role invalid_role ;; Next (Some up)) ;;
     status' <-
       (if is_undefined status then Next None
        else up <- one_of STATUSES status invalid_status ;; Next (Some up)) ;;
     balance' <-
       (if is_undefined balance then Next None
        else
          reject_if (bad_balance balance) invalid_balance ;;
          Next (Some (parseFloat balance))) ;;
     apiKey' <-
       (if is_undefined apiKey then Next None
        else if truthy apiKey then
          t <- eval (method trim apiKey) ;; Next (Some (Some t))
        else Next (Some None)) ;;
     let updateData :=
       mkUpdateData name' email' password' role' status' balance' apiKey' in
     let updated :=
       update_where user_id n (apply_update updateData now) (users db) in
     updatedUser <- found (find_by user_id n updated) internal_error ;;
     Next (respond (excludePassword (user_row updatedUser)) 200,
           set_users updated (next_user db) db)).

Definition DELETE (q : Query) (db : Db) : Response * Db :=
  handle db
    (let id := get "id" q in
     reject_if (negb (truthy id)) invalid_id ;;
     n <- int_or (parseInt id) invalid_id ;;
     deletedUser <- found (find_by user_id n (users db)) user_not_found ;;
     Next (respond
             (JObj [("message", JStr "User deleted successfully");
                    ("user", excludePassword (user_row deletedUser))])
             200,
           set_users (delete_where user_id n (users db)) (next_user db) db)).

(** The session a valid [auth_token] cookie carries. *)
Record UserPayload : Type := mkUserPayload {
  payload_id : Z;
  payload_email : string;
  payload_name : string;
  payload_role : string
}.

(** [GET /api/auth/me]; [session] is what [getSession()] returned. *)
Definition me (session : option UserPayload) (db : Db) : Response * Db :=
  match session with
  | None => (respond (JObj [("error", JStr "Not authenticated")]) 401, db)
  | Some s =>
      match find_by user_id (payload_id s) (users db) with
      | None => (respond (JObj [("error", JStr "User not found")]) 404, db)
      | Some u =>
          (respond
             (JObj [("user",
                     JObj [ ("id", JNum (Z2float (user_id u)));
                            ("email", JStr (user_email u));
                            ("name", JStr (user_name u));
                            ("role", JStr (user_role u));
                            ("balance", JNum (user_balance u));
                            ("status", JStr (user_status u));
                            ("apiKey", opt_string (user_apiKey u));
                            ("createdAt", JStr (user_createdAt u)) ])])
             200, db)
      end
  end.

(** [register(email, password, name)] of [lib/auth.ts]: the new account
    starts with balance 0.  The result is the session payload, or
    [None] when the email is taken. *)
Definition register (email password name now : string) (db : Db)
  : option UserPayload * Db :=
  let address := trim (toLowerCase email) in
  if existsb (fun u => String.eqb (user_email u) address) (users db)
  then (None, db)
  else
    let newUser :=
      mkUser (next_user db) address (bcrypt_hash password) (trim name)
             "USER" 0%float None "ACTIVE" now now in
    (Some (mkUserPayload (next_user db) address (trim name) "USER"),
     set_users (users db ++ [newUser]) (next_user db + 1) db).

End Handlers.
End Users.

(** ** The orders endpoint ([/api/orders]) *)

Module Orders.

Local Open Scope handler_scope.

Definition VALID_STATUSES : list string :=
  ["PENDING"; "PROCESSING"; "COMPLETED"; "CANCELLED"; "PARTIAL"; "REFUNDED"].

Definition invalid_id : Response :=
  bad_request "Valid ID is required" "INVALID_ID".
Definition order_not_found : Response :=
  not_found "Order not found" "ORDER_NOT_FOUND".
Definition invalid_status : Response :=
  bad_request
    "Invalid status. Must be one of: PENDING, PROCESSING, COMPLETED, CANCELLED, PARTIAL, REFUNDED"
    "INVALID_STATUS".
Definition invalid_quantity : Response :=
  bad_request "quantity must be a positive integer" "INVALID_QUANTITY".
Definition invalid_charge : Response :=
  bad_request "charge must be a positive number" "INVALID_CHARGE".

(** The fields a [PUT] sets; [updatedAt] is always set. *)
Record Updates : Type := mkUpdates {
  set_status : option string;
  set_startCount : option Z;
  set_remains : option Z;
  set_providerOrderId : option string
}.

Definition or_keep {A : Type} (o : option A) (a : A) : A :=
  match o with Some b => b | None => a end.

Definition or_keep_opt {A : Type} (o : option A) (a : option A) : option A :=
  match o with Some b => Some b | None => a end.

Definition apply_updates (d : Updates) (now : string) (o : Order) : Order :=
  mkOrder (order_id o) (order_userId o) (order_serviceId o) (order_link o)
          (order_quantity o) (order_charge o)
          (or_keep_opt (set_startCount d) (order_startCount o))
          (or_keep_opt (set_remains d) (order_remains o))
          (or_keep (set_status d) (order_status o))
          (or_keep_opt (set_providerOrderId d) (order_providerOrderId o))
          (order_createdAt o)
          now.

Section Handlers.
Context {R : Runtime}.

Definition GET_one (id : JsVal) (db : Db) : Outcome (Response * Db) :=
  reject_if (negb (truthy id)) invalid_id ;;
  n <- int_or (parseInt id) invalid_id ;;
  order <- found (find_by order_id n (orders db)) order_not_found ;;
  Next (respond (order_row order) 200, db).

Definition GET_list (q : Query) (db : Db) : Outcome (Response * Db) :=
  let limit := Math_min (parseInt (coalesce (get "limit" q) (JStr "10"))) 100 in
  let offset := parseInt (coalesce (get "offset" q) (JStr "0")) in
  let userId := get "userId" q in
  let serviceId := get "serviceId" q in
  let status := get "status" q in
  let search := get "search" q in
  by_user <-
    (if truthy userId then
       n <- int_or (parseInt userId)
              (bad_request "Valid userId is required" "INVALID_USER_ID") ;;
       Next (fun o => order_userId o =? n)
     else Next (fun _ => true)) ;;
  by_service <-
    (if truthy serviceId then
       n <- int_or (parseInt serviceId)
              (bad_request "Valid serviceId is required" "INVALID_SERVICE_ID") ;;
       Next (fun o => order_serviceId o =? n)
     else Next (fun _ => true)) ;;
  by_status <-
    (if truthy status then
       up <- eval (method toUpperCase status) ;;
       reject_if (negb (includes VALID_STATUSES (JStr up))) invalid_status ;;
       Next (fun o => String.eqb (order_status o) up)
     else Next (fun _ => true)) ;;
  let by_search (o : Order) :=
    if truthy search then sql_like ("%" ++ toString search ++ "%") (order_link o)
    else true in
  let results :=
    paginate limit offset
      (orderBy_desc order_createdAt
         (filter (fun o => by_user o && by_service o && by_status o
                           && by_search o)
                 (orders db))) in
  Next (respond (JArr (map order_row results)) 200, db).

Definition GET (q : Query) (db : Db) : Response * Db :=
  handle db
    (let id := get "id" q in
     if truthy id then GET_one id db else GET_list q db).

(** An optional integer column of the insert: kept when given and not
    NaN. *)
Definition optional_int (v : JsVal) : option Z :=
  if nullish v then None else parseInt v.

Definition POST (body : JsVal) (now : string) (db : Db) : Response * Db :=
  handle db
    (destructure body ;;
     let userId := prop "userId" body in
     let serviceId := prop "serviceId" body in
     let link := prop "link" body in
     let quantity := prop "quantity" body in
     let charge := prop "charge" body in
     let startCount := prop "startCount" body in
     let remains := prop "remains" body in
     let status := prop "status" body in
     let providerOrderId := prop "providerOrderId" body in
     reject_if (negb (truthy userId))
       (bad_request "userId is required" "MISSING_USER_ID") ;;
     reject_if (negb (truthy serviceId))
       (bad_request "serviceId is required" "MISSING_SERVICE_ID") ;;
     reject_if
       (negb (truthy link) || negb (is_string link)
        || match link with JStr s => String.eqb (trim s) "" | _ => false end)
       (bad_request "link is required and must be a non-empty string"
                    "MISSING_LINK") ;;
     reject_if (nullish quantity)
       (bad_request "quantity is required" "MISSING_QUANTITY") ;;
     reject_if (nullish charge)
       (bad_request "charge is required" "MISSING_CHARGE") ;;
     userIdInt <- int_or (parseInt userId)
       (bad_request "userId must be a valid integer" "INVALID_USER_ID") ;;
     serviceIdInt <- int_or (parseInt serviceId)
       (bad_request "serviceId must be a valid integer" "INVALID_SERVICE_ID") ;;
     quantityInt <- int_or (parseInt quantity) invalid_quantity ;;
     reject_if (quantityInt <=? 0) invalid_quantity ;;
     let chargeFloat := parseFloat charge in
     reject_if (PrimFloat.is_nan chargeFloat || PrimFloat.leb chargeFloat 0)
       invalid_charge ;;
     orderStatus <-
       (if truthy status then eval (method toUpperCase status)
        else Next "PENDING") ;;
     reject_if (negb (includes VALID_STATUSES (JStr orderStatus)))
       invalid_status ;;
     _ <- found (find_by user_id userIdInt (users db))
            (bad_request "User not found" "USER_NOT_FOUND") ;;
     _ <- found (find_by service_id serviceIdInt (services db))
            (bad_request "Service not found" "SERVICE_NOT_FOUND") ;;
     link' <- eval (method trim link) ;;
     let newOrder :=
       mkOrder (next_order db) userIdInt serviceIdInt link' quantityInt
               chargeFloat (optional_int startCount) (optional_int remains)
               orderStatus
               (match providerOrderId with
                | JStr s => Some (trim s)
                | _ => None
                end)
               now now in
     Next (respond (order_row newOrder) 201,
           set_orders (orders db ++ [newOrder]) (next_order db + 1) db)).

Definition PUT (q : Query) (body : JsVal) (now : string) (db : Db)
  : Response * Db :=
  handle db
    (let id := get "id" q in
     reject_if (negb (truthy id)) invalid_id ;;
     orderId <- int_or (parseInt id) invalid_id ;;
     _ <- found (find_by order_id orderId (orders db)) order_not_found ;;
     destructure body ;;
     let status := prop "status" body in
     let startCount := prop "startCount" body in
     let remains := prop "remains" body in
     let providerOrderId := prop "providerOrderId" body in
     status' <-
       (if is_undefined status then Next None
        else
          let statusUpper :=
            match status with JStr s => toUpperCase s | _ => "" end in
          reject_if (negb (includes VALID_STATUSES (JStr statusUpper)))
            invalid_status ;;
          Next (Some statusUpper)) ;;
     startCount' <-
       (if nullish startCount then Next None
        else
          n <- int_or (parseInt startCount)
                 (bad_request "startCount must be a valid integer"
                              "INVALID_START_COUNT") ;;
          Next (Some n)) ;;
     remains' <-
       (if nullish remains then Next None
        else
          n <- int_or (parseInt remains)
                 (bad_request "remains must be a valid integer"
                              "INVALID_REMAINS") ;;
          Next (Some n)) ;;
     providerOrderId' <-
       (if nullish providerOrderId then Next None
        else match providerOrderId with
             | JStr s => Next (Some (trim s))
             | _ => Reply (bad_request "providerOrderId must be a string"
                                       "INVALID_PROVIDER_ORDER_ID")
             end) ;;
     let updates :=
       mkUpdates status' startCount' remains' providerOrderId' in
     let updated :=
       update_where order_id orderId (apply_updates updates now) (orders db) in
     row <- found (find_by order_id orderId updated) internal_error ;;
     Next (respond (order_row row) 200,
           set_orders updated (next_order db) db)).

Definition DELETE (q : Query) (db : Db) : Response * Db :=
  handle db
    (let id := get "id" q in
     reject_if (negb (truthy id)) invalid_id ;;
     orderId <- int_or (parseInt id) invalid_id ;;
     deleted <- found (find_by order_id orderId (orders db)) order_not_found ;;
     Next (respond
             (JObj [("message", JStr "Order deleted successfully");
                    ("order", order_row deleted)])
             200,
           set_orders (delete_where order_id orderId (orders db))
                      (next_order db) db)).

End Handlers.
End Orders.

(** ** The transactions endpoint ([/api/transactions]) *)

Module Transactions.

Local Open Scope handler_scope.

Definition VALID_TRANSACTION_TYPES : list string :=
  ["DEPOSIT"; "ORDER"; "REFUND"; "ADMIN_ADJUSTMENT"].

Definition invalid_id : Response :=
  bad_request "Valid ID is required" "INVALID_ID".
Definition transaction_not_found : Response :=
  not_found "Transaction not found" "TRANSACTION_NOT_FOUND".
Definition invalid_type : Response :=
  bad_request
    "Invalid type. Must be one of: DEPOSIT, ORDER, REFUND, ADMIN_ADJUSTMENT"
    "INVALID_TYPE".
Definition invalid_amount : Response :=
  bad_request "amount cannot be zero" "INVALID_AMOUNT".

(** A [real NOT NULL] column refuses NaN (SQLite stores it as [NULL]):
    the insert throws. *)
Definition not_null (x : float) : Outcome float :=
  if PrimFloat.is_nan x then Raise else Next x.

Section Handlers.
Context {R : Runtime}.

Definition GET_one (id : JsVal) (db : Db) : Outcome (Response * Db) :=
  reject_if (negb (truthy id)) invalid_id ;;
  n <- int_or (parseInt id) invalid_id ;;
  transaction <- found (find_by tx_id n (transactions db))
                   transaction_not_found ;;
  Next (respond (transaction_row transaction) 200, db).

(** The [WHERE] clause of the list query, or the early return of a
    filter that does not validate. *)
Definition conditions (q : Query) : Outcome (Transaction -> bool) :=
  let userId := get "userId" q in
  let type := get "type" q in
  let orderId := get "orderId" q in
  by_user <-
    (if truthy userId then
       n <- int_or (parseInt userId)
              (bad_request "Valid userId is required" "INVALID_USER_ID") ;;
       Next (fun t => tx_userId t =? n)
     else Next (fun _ => true)) ;;
  by_type <-
    (if truthy type then
       reject_if (negb (includes VALID_TRANSACTION_TYPES type)) invalid_type ;;
       Next (fun t => String.eqb (tx_type t) (toString type))
     else Next (fun _ => true)) ;;
  by_order <-
    (if truthy orderId then
       n <- int_or (parseInt orderId)
              (bad_request "Valid orderId is required" "INVALID_ORDER_ID") ;;
       Next (fun t => match tx_orderId t with
                      | Some o => o =? n
                      | None => false
                      end)
     else Next (fun _ => true)) ;;
  Next (fun t => by_user t && by_type t && by_order t).

Definition GET_list (q : Query) (db : Db) : Outcome (Response * Db) :=
  let limit := Math_min (parseInt (coalesce (get "limit" q) (JStr "10"))) 100 in
  let offset := parseInt (coalesce (get "offset" q) (JStr "0")) in
  where_ <- conditions q ;;
  let results :=
    paginate limit offset
      (orderBy_desc tx_createdAt (filter where_ (transactions db))) in
  Next (respond (JArr (map transaction_row results)) 200, db).

Definition GET (q : Query) (db : Db) : Response * Db :=
  handle db
    (let id := get "id" q in
     if truthy id then GET_one id db else GET_list q db).

Definition POST (body : JsVal) (now : string) (db : Db) : Response * Db :=
  handle db
    (destructure body ;;
     let userId := prop "userId" body in
     let type := prop "type" body in
     let amount := prop "amount" body in
     let balanceBefore := prop "balanceBefore" body in
     let balanceAfter := prop "balanceAfter" body in
     let description := prop "description" body in
     let orderId := prop "orderId" body in
     reject_if (negb (truthy userId))
       (bad_request "userId is required" "MISSING_USER_ID") ;;
     reject_if (negb (truthy type))
       (bad_request "type is required" "MISSING_TYPE") ;;
     reject_if (nullish amount)
       (bad_request "amount is required" "MISSING_AMOUNT") ;;
     reject_if (nullish balanceBefore)
       (bad_request "balanceBefore is required" "MISSING_BALANCE_BEFORE") ;;
     reject_if (nullish balanceAfter)
       (bad_request "balanceAfter is required" "MISSING_BALANCE_AFTER") ;;
     reject_if (negb (truthy description))
       (bad_request "description is required" "MISSING_DESCRIPTION") ;;
     reject_if (negb (includes VALID_TRANSACTION_TYPES type)) invalid_type ;;
     reject_if (strict_eq_zero amount) invalid_amount ;;
     userIdInt <- int_or (parseInt userId)
       (bad_request "userId must be a valid integer" "INVALID_USER_ID") ;;
     reject_if (negb (nullish orderId) && isNaN_int (parseInt orderId))
       (bad_request "orderId must be a valid integer" "INVALID_ORDER_ID") ;;
     type' <- eval (method trim type) ;;
     description' <- eval (method trim description) ;;
     amount' <- not_null (parseFloat amount) ;;
     balanceBefore' <- not_null (parseFloat balanceBefore) ;;
     balanceAfter' <- not_null (parseFloat balanceAfter) ;;
     let newTransaction :=
       mkTransaction (next_transaction db) userIdInt type' amount'
                     balanceBefore' balanceAfter' description'
                     (if nullish orderId then None else parseInt orderId)
                     now in
     Next (respond (transaction_row newTransaction) 201,
           set_transactions (transactions db ++ [newTransaction])
                            (next_transaction db + 1) db)).

Definition DELETE (q : Query) (db : Db) : Response * Db :=
  handle db
    (let id := get "id" q in
     reject_if (negb (truthy id)) invalid_id ;;
     n <- int_or (parseInt id) invalid_id ;;
     deleted <- found (find_by tx_id n (transactions db))
                  transaction_not_found ;;
     Next (respond
             (JObj [("message", JStr "Transaction deleted successfully");
                    ("transaction", transaction_row deleted)])
             200,
           set_transactions (delete_where tx_id n (transactions db))
                            (next_transaction db) db)).

End Handlers.
End Transactions.

(** ** The client flows

    The three handlers of the user interface that change money.  Each is
    a sequence of requests against the endpoints above; [t1], [t2], ...
    are the server's clock at each request that writes. *)

Module Client.

Inductive Toast : Type :=
| NoToast
| ToastError (message : string)
| ToastSuccess (message : string).

Section Flows.
Context {R : Runtime}.

(** [a + b]: concatenation as soon as one side is (or converts to) a
    string, addition of numbers otherwise. *)
Definition stringy (v : JsVal) : bool :=
  match v with JStr _ | JArr _ | JObj _ => true | _ => false end.

Definition js_add (a b : JsVal) : JsVal :=
  if (stringy a || stringy b)%bool then JStr (toString a ++ toString b)
  else JNum (toNumber a + toNumber b).

(** [parseInt(...)] used as a number. *)
Definition number_of (n : option Z) : float :=
  match n with Some z => Z2float z | None => nan end.

(** [`/api/...?id=${v}`]; an id prints as decimal digits, which a URL
    leaves as they are. *)
Definition id_query (v : JsVal) : Query := [("id", toString v)].

(** [handleOrderSubmit] of the service browser.  [user] is the object
    [/api/auth/me] returned when the dashboard loaded; [link] and
    [quantity] are the fields of the form. *)
Definition handleOrderSubmit (selectedService : option Service) (user : JsVal)
  (link quantity : string) (t1 t2 t3 : string) (db : Db) : Toast * Db :=
  match selectedService with
  | None => (NoToast, db)
  | Some service =>
    if negb (truthy user) then (NoToast, db)
    else
      let quantity := parseInt (JStr quantity) in
      if match quantity with
         | Some n => (n <? service_minOrder service)
                     || (service_maxOrder service <? n)
         | None => false
         end
      then (ToastError
              ("Quantity must be between "
               ++ toString (JNum (Z2float (service_minOrder service)))
               ++ " and "
               ++ toString (JNum (Z2float (service_maxOrder service)))), db)
      else
        let charge :=
          (number_of quantity / 1000 * service_rate service)%float in
        if PrimFloat.ltb (toNumber (prop "balance" user)) charge
        then (ToastError
                "Insufficient balance. Please add funds to your wallet.", db)
        else
          let (orderRes, db1) :=
            Orders.POST
              (json (JObj [ ("userId", prop "id" user);
                            ("serviceId", JNum (Z2float (service_id service)));
                            ("link", JStr link);
                            ("quantity", JNum (number_of quantity));
                            ("charge", JNum charge);
                            ("status", JStr "PENDING") ]))
              t1 db in
          if negb (ok orderRes) then (ToastError "Failed to place order", db1)
          else
            let order := body orderRes in
            let newBalance :=
              (toNumber (prop "balance" user) - charge)%float in
            let (_, db2) :=
              Users.PUT (id_query (prop "id" user))
                        (json (JObj [("balance", JNum newBalance)])) t2 db1 in
            let (_, db3) :=
              Transactions.POST
                (json (JObj [ ("userId", prop "id" user);
                              ("type", JStr "ORDER");
                              ("amount", JNum (- charge)%float);
                              ("balanceBefore", prop "balance" user);
                              ("balanceAfter", JNum newBalance);
                              ("description",
                               JStr ("Order #" ++ toString (prop "id" order)
                                     ++ " - " ++ service_name service));
                              ("orderId", prop "id" order) ]))
                t3 db2 in
            (ToastSuccess "Order placed successfully!", db3)
  end.

(** [handleBalanceUpdate] of the admin's user table.  [editingUser] is a
    row of the list [/api/users] returned; [amount], [type] and
    [description] are the fields of the form. *)
Definition handleBalanceUpdate (editingUser : option JsVal)
  (amount type description : string) (t1 t2 : string) (db : Db)
  : Toast * Db :=
  match editingUser with
  | None => (NoToast, db)
  | Some editingUser =>
    let amount := parseFloat (JStr amount) in
    let newBalance :=
      if String.eqb type "add"
      then js_add (prop "balance" editingUser) (JNum amount)
      else JNum (toNumber (prop "balance" editingUser) - amount)%float in
    if PrimFloat.ltb (toNumber newBalance) 0
    then (ToastError "Insufficient balance", db)
    else
      let (userRes, db1) :=
        Users.PUT (id_query (prop "id" editingUser))
                  (json (JObj [("balance", newBalance)])) t1 db in
      if negb (ok userRes) then (ToastError "Failed to update balance", db1)
      else
        let (_, db2) :=
          Transactions.POST
            (json (JObj [ ("userId", prop "id" editingUser);
                          ("type", JStr "ADMIN_ADJUSTMENT");
                          ("amount",
                           JNum (if String.eqb type "add" then amount
                                 else (- amount)%float));
                          ("balanceBefore", prop "balance" editingUser);
                          ("balanceAfter", newBalance);
                          ("description",
                           JStr (if String.eqb description "" then
                                   "Admin "
                                   ++ (if String.eqb type "add" then "added"
                                       else "deducted")
                                   ++ " funds"
                                 else description)) ]))
            t2 db1 in
        (ToastSuccess "Balance updated successfully", db2)
  end.

(** The order table shows the Refund button on these rows only. *)
Definition refund_offered (order : JsVal) : bool :=
  match prop "status" order with
  | JStr s => (String.eqb s "PENDING" || String.eqb s "PROCESSING")%bool
  | _ => false
  end.

(** [handleRefund] of the admin's order table.  [order] is a row of the
    list [/api/orders] returned; [confirmed] is the answer to the
    confirmation dialog. *)
Definition handleRefund (confirmed : bool) (order : JsVal)
  (t1 t2 t3 : string) (db : Db) : Toast * Db :=
  if negb confirmed then (NoToast, db)
  else
    let (userRes, db0) := Users.GET (id_query (prop "userId" order)) db in
    let userData := body userRes in
    let newBalance := js_add (prop "balance" userData) (prop "charge" order) in
    let (_, db1) :=
      Users.PUT (id_query (prop "userId" order))
                (json (JObj [("balance", newBalance)])) t1 db0 in
    let (_, db2) :=
      Transactions.POST
        (json (JObj [ ("userId", prop "userId" order);
                      ("type", JStr "REFUND");
                      ("amount", prop "charge" order);
                      ("balanceBefore", prop "balance" userData);
                      ("balanceAfter", newBalance);
                      ("description",
                       JStr ("Refund for order #"
                             ++ toString (prop "id" order)));
                      ("orderId", prop "id" order) ]))
        t2 db1 in
    let (_, db3) :=
      Orders.PUT (id_query (prop "id" order))
                 (json (JObj [("status", JStr "REFUNDED")])) t3 db2 in
    (ToastSuccess "Order refunded successfully", db3).

End Flows.
End Client.

(** ** The server as a transition system *)

Module Server.

Inductive Request : Type :=
| UsersGET (q : Query)
| UsersPOST (body : JsVal)
| UsersPUT (q : Query) (body : JsVal)
| UsersDELETE (q : Query)
| AuthMe (session : option Users.UserPayload)
| OrdersGET (q : Query)
| OrdersPOST (body : JsVal)
| OrdersPUT (q : Query) (body : JsVal)
| OrdersDELETE (q : Query)
| TransactionsGET (q : Query)
| TransactionsPOST (body : JsVal)
| TransactionsDELETE (q : Query).

(** What can happen to the store: a request, or a registration. *)
Inductive Op : Type :=
| Call (r : Request)
| Register (email password name : string).

Section Serve.
Context {R : Runtime}.

Definition serve (now : string) (r : Request) (db : Db) : Response * Db :=
  match r with
  | UsersGET q => Users.GET q db
  | UsersPOST b => Users.POST b now db
  | UsersPUT q b => Users.PUT q b now db
  | UsersDELETE q => Users.DELETE q db
  | AuthMe s => Users.me s db
  | OrdersGET q => Orders.GET q db
  | OrdersPOST b => Orders.POST b now db
  | OrdersPUT q b => Orders.PUT q b now db
  | OrdersDELETE q => Orders.DELETE q db
  | TransactionsGET q => Transactions.GET q db
  | TransactionsPOST b => Transactions.POST b now db
  | TransactionsDELETE q => Transactions.DELETE q db
  end.

Definition step (db : Db) (op : string * Op) : Db :=
  match snd op with
  | Call r => snd (serve (fst op) r db)
  | Register email password name =>
      snd (Users.register email password name (fst op) db)
  end.

(** The store after a history of operations, each with its time. *)
Definition run (history : list (string * Op)) (db : Db) : Db :=
  fold_left step history db.

End Serve.
End Server.

(** ** A reference runtime

    An implementation of the host's conversions, used to run the
    handlers on concrete requests.  It follows ECMAScript on decimal and
    hexadecimal integers, on decimal fractions with an optional
    exponent, and on the numbers the examples use.  Two things it does
    not do: it prints a number with all its decimal digits and never in
    exponent notation, and so [parseInt] of a number that JavaScript
    prints in exponent notation (1e21 and above, below 1e-6) is left
    NaN.  No example below passes such a number.  [bcrypt_hash] stands
    for the salted hash. *)

Module Reference.

Definition digit (c : ascii) : option Z :=
  let n := Z.of_nat (nat_of_ascii c) in
  if (48 <=? n) && (n <=? 57) then Some (n - 48) else None.

Definition hex_digit (c : ascii) : option Z :=
  let n := Z.of_nat (nat_of_ascii c) in
  if (48 <=? n) && (n <=? 57) then Some (n - 48)
  else if (97 <=? n) && (n <=? 102) then Some (n - 87)
  else if (65 <=? n) && (n <=? 70) then Some (n - 55)
  else None.

(** The longest prefix of digits: its value, its length, and the rest. *)
Fixpoint scan (dig : ascii -> option Z) (radix : Z) (l : list ascii)
  (acc : Z) (count : nat) : Z * nat * list ascii :=
  match l with
  | [] => (acc, count, [])
  | c :: r =>
      match dig c with
      | Some d => scan dig radix r (radix * acc + d) (S count)
      | None => (acc, count, l)
      end
  end.

Definition sign_of (l : list ascii) : bool * list ascii :=
  match l with
  | "-"%char :: r => (true, r)
  | "+"%char :: r => (false, r)
  | _ => (false, l)
  end.

Definition parseInt_string (s : string) : option Z :=
  let (negative, l) := sign_of (list_ascii_of_string (trimStart s)) in
  let '(value, count, _) :=
    match l with
    | "0"%char :: "x"%char :: r | "0"%char :: "X"%char :: r =>
        scan hex_digit 16 r 0 0%nat
    | _ => scan digit 10 l 0 0%nat
    end in
  if Nat.eqb count 0 then None
  else Some (if negative then - value else value).

(** [n / d] rounded to the nearest float, ties to even, for [0 <= n] and
    [0 < d]: the quotient is taken with two bits to spare and a sticky
    bit. *)
Definition ratio (n d : Z) : float :=
  if n =? 0 then 0%float
  else
    let s := Z.max 0 (56 + Z.log2 d - Z.log2 n) in
    let q := (n * 2 ^ s) / d in
    let sticky := if (n * 2 ^ s) mod d =? 0 then 0 else 1 in
    SF2Prim (binary_normalize prec emax (2 * q + sticky) (- s - 1) false).

(** A decimal literal at the head of [l]: its value and what follows. *)
Definition scan_decimal (l : list ascii) : option (float * list ascii) :=
  let (negative, l) := sign_of l in
  let signed (x : float) := if negative then (- x)%float else x in
  if prefix "Infinity" (string_of_list_ascii l)
  then Some (signed infinity, skipn 8 l)
  else
    let '(int_part, n1, l1) := scan digit 10 l 0 0%nat in
    let '(mantissa, n2, l2) :=
      match l1 with
      | "."%char :: r => scan digit 10 r int_part 0%nat
      | _ => (int_part, 0%nat, l1)
      end in
    if Nat.eqb (n1 + n2) 0 then None
    else
      let '(exponent, l3) :=
        match l2 with
        | "e"%char :: r | "E"%char :: r =>
            let (neg_e, r') := sign_of r in
            let '(e, n3, r'') := scan digit 10 r' 0 0%nat in
            if Nat.eqb n3 0 then (0, l2)
            else ((if neg_e then - e else e), r'')
        | _ => (0, l2)
        end in
      let e := exponent - Z.of_nat n2 in
      Some (signed (if 0 <=? e then ratio (mantissa * 10 ^ e) 1
                    else ratio mantissa (10 ^ (- e))),
            l3).

Definition parseFloat_string (s : string) : float :=
  match scan_decimal (list_ascii_of_string (trimStart s)) with
  | Some (x, _) => x
  | None => nan
  end.

(** [Number(s)]: the whole string must be a literal; the empty string
    is 0. *)
Definition toNumber_string (s : string) : float :=
  match list_ascii_of_string (trim s) with
  | [] => 0%float
  | l => match scan_decimal l with
         | Some (x, []) => x
         | _ => nan
         end
  end.

Definition string_of_Z (z : Z) : string :=
  NilZero.string_of_int (Z.to_int z).

(** Trailing zeros of a fraction are not printed. *)
Fixpoint drop_zeros (l : list ascii) : list ascii :=
  match l with
  | "0"%char :: r => drop_zeros r
  | _ => l
  end.

Definition fraction_digits (n : Z) (f : Z) : string :=
  let digits := list_ascii_of_string (string_of_Z (f * 5 ^ n)) in
  let padded :=
    (repeat "0"%char (Z.to_nat n - List.length digits) ++ digits)%list in
  string_of_list_ascii (rev (drop_zeros (rev padded))).

(** A number in decimal: its digits in full, where JavaScript prints the
    shortest digits that read back as the same number. *)
Definition toString_number (x : float) : string :=
  match Prim2SF x with
  | S754_zero _ => "0"
  | S754_nan => "NaN"
  | S754_infinity s => if s then "-Infinity" else "Infinity"
  | S754_finite s m e =>
      (if s then "-" else "")
      ++ (if 0 <=? e then string_of_Z (Zpos m * 2 ^ e)
          else
            let whole := string_of_Z (Z.shiftr (Zpos m) (- e)) in
            let f := Zpos m mod 2 ^ (- e) in
            if f =? 0 then whole
            else whole ++ "." ++ fraction_digits (- e) f)
  end.

Fixpoint toString (v : JsVal) : string :=
  match v with
  | JUndef => "undefined"
  | JNull => "null"
  | JBool true => "true"
  | JBool false => "false"
  | JNum x => toString_number x
  | JStr s => s
  | JArr l =>
      String.concat ","
        (map (fun e => if nullish e then "" else toString e) l)
  | JObj _ => "[object Object]"
  end.

Definition in_plain_notation (x : float) : bool :=
  (PrimFloat.eqb x 0
   || (PrimFloat.leb 1e-6 (abs x) && PrimFloat.ltb (abs x) 1e21))%bool.

Definition parseInt (v : JsVal) : option Z :=
  match v with
  | JNum x => if in_plain_notation x then trunc x else None
  | _ => parseInt_string (toString v)
  end.

Definition parseFloat (v : JsVal) : float :=
  match v with
  | JNum x => if PrimFloat.eqb x 0 then 0%float else x
  | _ => parseFloat_string (toString v)
  end.

Definition toNumber (v : JsVal) : float :=
  match v with
  | JUndef => nan
  | JNull => 0%float
  | JBool true => 1%float
  | JBool false => 0%float
  | JNum x => x
  | _ => toNumber_string (toString v)
  end.

(** [value LIKE pattern]: [%] is any run of characters, [_] any one
    character; letters match whatever their case. *)
Fixpoint like (pattern : list ascii) : list ascii -> bool :=
  match pattern with
  | [] => fun value => match value with [] => true | _ => false end
  | "%"%char :: p =>
      fix any (value : list ascii) : bool :=
        (like p value
         || match value with [] => false | _ :: r => any r end)%bool
  | "_"%char :: p =>
      fun value => match value with [] => false | _ :: r => like p r end
  | c :: p =>
      fun value =>
        match value with
        | [] => false
        | d :: r => (Ascii.eqb (lower_ascii c) (lower_ascii d) && like p r)%bool
        end
  end.

Definition sql_like (pattern value : string) : bool :=
  like (list_ascii_of_string pattern) (list_ascii_of_string value).

Definition bcrypt_hash (password : string) : string := "$2b$10$" ++ password.

#[export] Instance runtime : Runtime := {
  Js.parseInt := parseInt;
  Js.parseFloat := parseFloat;
  Js.toString := toString;
  Js.toNumber := toNumber;
  Js.bcrypt_hash := bcrypt_hash;
  Js.sql_like := sql_like;
  Js.parseFloat_number := fun _ => eq_refl;
  Js.toNumber_number := fun _ => eq_refl;
  Js.toString_string := fun _ => eq_refl
}.

End Reference.

(** ** The wallet ledger of the specification *)

Module Ledger.

(** [getBalance(accountId)]: the stored balance of the account. *)
Definition getBalance (db : Db) (accountId : Z) : option float :=
  option_map user_balance (find_by user_id accountId (users db)).

(** [listEntries(accountId)]: the ledger entries recorded for the
    account. *)
Definition listEntries (db : Db) (accountId : Z) : list Transaction :=
  filter (fun t => tx_userId t =? accountId) (transactions db).



(** A balance that is a number and is not below zero. *)
Definition balance_ok (b : float) : bool :=
  negb (PrimFloat.is_nan b || PrimFloat.ltb b 0).

Definition balances_ok (db : Db) : Prop :=
  Forall (fun u => balance_ok (user_balance u) = true) (users db).

(** The entry [appendEntry] would refuse: it takes the account's
    balance below zero. *)
Definition overdraws (db : Db) (accountId : Z) (amount : float) : bool :=
  match getBalance db accountId with
  | Some b => PrimFloat.ltb (b + amount) 0
  | None => false
  end.

(** The Refund entries that reference an order. *)
Definition refunds_of (db : Db) (orderId : Z) : list Transaction :=
  filter (fun t => String.eqb (tx_type t) "REFUND"
                   && match tx_orderId t with
                      | Some o => o =? orderId
                      | None => false
                      end)
         (transactions db).

Definition status_of (db : Db) (orderId : Z) : option string :=
  option_map order_status (find_by order_id orderId (orders db)).

(** A finite float as the fraction it is: numerator and (positive)
    denominator. *)
Definition fraction (x : float) : option (Z * Z) :=
  match Prim2SF x with
  | S754_zero _ => Some (0, 1)
  | S754_finite s m e =>
      let n := if s then Zneg m else Zpos m in
      Some (if 0 <=? e then (n * 2 ^ e, 1) else (n, 2 ^ (- e)))
  | S754_nan | S754_infinity _ => None
  end.

(** The charge of the specification: [quantity / 1000 * rate] in exact
    arithmetic, rounded half-up to a whole number of cents, as the
    nearest float to that many hundredths. *)
Definition rounded_cents (quantity : Z) (rate : float) : option Z :=
  match fraction rate with
  | Some (n, d) => Some ((200 * quantity * n + 1000 * d) / (2000 * d))
  | None => None
  end.

Definition charge_of_spec (quantity : Z) (rate : float) : option float :=
  match rounded_cents quantity rate with
  | Some cents => Some (Z2float cents / 100)%float
  | None => None
  end.

(** A number as it arrives once sent as JSON: the sign of zero is
    lost. *)
Definition wire (x : float) : float :=
  if PrimFloat.eqb x 0 then 0%float else x.

(** A number that crosses JSON unchanged: finite, and not the negative
    zero. *)
Definition sendable (x : float) : Prop :=
  PrimFloat.is_nan x = false /\ PrimFloat.is_infinity x = false
  /\ wire x = x.

(** An id that survives the journey through a URL and through a JSON
    body, as every id below 2^53 does. *)
Definition travels {R : Runtime} (id : Z) : Prop :=
  let v := JNum (Z2float id) in
  sendable (Z2float id)
  /\ truthy v = true
  /\ String.eqb (toString v) "" = false
  /\ parseInt (JStr (toString v)) = Some id
  /\ parseInt v = Some id.

End Ledger.
Import Ledger.

(** ** A shop to run the handlers on *)

Module Example.
Import Reference.

Definition followers : Service :=
  mkService 1 "Instagram Followers" "Instagram" "Default" None
            2.5 100 100000 None "ACTIVE"
            "2024-01-01T00:00:00.000Z" "2024-01-01T00:00:00.000Z".

Definition likes : Service :=
  mkService 2 "Instagram Likes" "Instagram" "Default" None
            0.99 50 50000 None "ACTIVE"
            "2024-01-01T00:00:00.000Z" "2024-01-01T00:00:00.000Z".

(** The two services and nothing else. *)
Definition shop : Db := mkDb [] 1 [followers; likes] [] 1 [] 1.

(** The body of Alice's registration, with the optional fields
    [more]. *)
Definition signup (more : list (string * JsVal)) : JsVal :=
  JObj ([ ("email", JStr "alice@example.com");
          ("password", JStr "correct horse");
          ("name", JStr "Alice") ] ++ more).

(** The shop once Alice has an account holding [balance]. *)
Definition with_alice (balance : float) : Db :=
  snd (Users.POST (signup [("balance", JNum balance)])
                  "2024-05-01T09:00:00.000Z" shop).

(** Alice's row as the registration stored it. *)
Definition alice (balance : float) : User :=
  mkUser 1 "alice@example.com" "$2b$10$correct horse" "Alice" "USER" balance
         None "ACTIVE" "2024-05-01T09:00:00.000Z" "2024-05-01T09:00:00.000Z".

Definition alice_session : Users.UserPayload :=
  Users.mkUserPayload 1 "alice@example.com" "Alice" "USER".

(** What the dashboard holds of Alice once it has loaded from [db]. *)
Definition dashboard_user (db : Db) : JsVal :=
  prop "user" (body (fst (Users.me (Some alice_session) db))).

(** The first row of the admin's order table loaded from [db]. *)
Definition first_order (db : Db) : JsVal :=
  match body (fst (Orders.GET [] db)) with
  | JArr (o :: _) => o
  | _ => JNull
  end.

(** Alice at 100.00 orders 1000 followers. *)
Definition after_order : Db :=
  snd (Client.handleOrderSubmit (Some followers)
         (dashboard_user (with_alice 100)) "https://instagram.com/alice"
         "1000" "2024-05-01T10:00:00.000Z" "2024-05-01T10:00:01.000Z"
         "2024-05-01T10:00:02.000Z" (with_alice 100)).

(** The admin refunds that order from the table loaded after it was
    placed. *)
Definition after_refund : Db :=
  snd (Client.handleRefund true (first_order after_order)
         "2024-05-01T11:00:00.000Z" "2024-05-01T11:00:01.000Z"
         "2024-05-01T11:00:02.000Z" after_order).

(** A second admin, whose table was loaded before the refund, refunds
    the same row. *)
Definition after_second_refund : Db :=
  snd (Client.handleRefund true (first_order after_order)
         "2024-05-01T11:05:00.000Z" "2024-05-01T11:05:01.000Z"
         "2024-05-01T11:05:02.000Z" after_refund).

Definition deposit (n : nat) : Transaction :=
  mkTransaction (Z.of_nat n) 1 "DEPOSIT" 1 0 1 "Top up" None
                "2024-05-01T12:00:00.000Z".

(** A ledger of [n] entries. *)
Definition ledger_of (n : nat) : Db :=
  set_transactions (map deposit (seq 1 n)) (Z.of_nat n + 1) (with_alice 0).

End Example.

(** ** What the properties below are stated with *)

Module Properties.

(** The response carries no [password] key, at any depth. *)
Definition hides_password (rd : Response * Db) : Prop :=
  has_key "password" (body (fst rd)) = false.

(** The requests of the users endpoint, and those of the transactions
    endpoint. *)
Definition to_users (r : Server.Request) : bool :=
  match r with
  | Server.UsersGET _ | Server.UsersPOST _ | Server.UsersPUT _ _
  | Server.UsersDELETE _ => true
  | _ => false
  end.


(** Descending by [createdAt]: each row is not older than the next. *)
Definition newest_first (rows : list Transaction) : Prop :=
  Sorted (fun a b => String.leb (tx_createdAt b) (tx_createdAt a) = true)
         rows.

(** The number of rows in a list response. *)
Definition count (r : Response) : nat :=
  match body r with JArr l => List.length l | _ => 0%nat end.

(** The store with every balance replaced by [f] of the account. *)
Definition with_balances (f : User -> float) (db : Db) : Db :=
  set_users
    (map (fun u =>
            mkUser (user_id u) (user_email u) (user_password u) (user_name u)
                   (user_role u) (f u) (user_apiKey u) (user_status u)
                   (user_createdAt u) (user_updatedAt u))
         (users db))
    (next_user db) db.

(** The update of a [PUT] that carries a balance and nothing else, and
    of one that carries a status and nothing else. *)
Definition balance_only (x : float) : Users.UpdateData :=
  Users.mkUpdateData None None None None None (Some x) None.

Definition status_only (s : string) : Orders.Updates :=
  Orders.mkUpdates (Some s) None None None.

(** The scenario of the specification: rate 2.50 per 1000, quantity
    1000, balance 100.00. *)
Definition scenario : Prop :=
  map order_charge (orders Example.after_order) = [2.5%float]
  /\ getBalance Example.after_order 1 = Some 97.5%float
  /\ transactions Example.after_order
     = [ mkTransaction 1 1 "ORDER" (-2.5) 100 97.5
           "Order #1 - Instagram Followers" (Some 1)
           "2024-05-01T10:00:02.000Z" ].

End Properties.
Import Properties.

(** The closed examples run on the reference runtime; inside a section
    the runtime is the section's. *)
#[local] Existing Instance Reference.runtime.

(** ** Reasoning about handlers *)

(** The first computation of a chain of binds. *)
Ltac head_of o :=
  lazymatch o with
  | bind ?c _ => head_of c
  | _ => o
  end.

(** One step of a handler: a case analysis on its next test. *)
Ltac handler_step :=
  match goal with
  | |- context [handle _ ?o] =>
      let h := head_of o in
      lazymatch h with
      | reject_if ?c _ => destruct c eqn:?
      | int_or ?n _ => destruct n eqn:?
      | found ?x _ => destruct x eqn:?
      | eval ?e => destruct e eqn:?
      | destructure ?b => unfold destructure; destruct (nullish b) eqn:?
      | Transactions.not_null ?x =>
          unfold Transactions.not_null; destruct (PrimFloat.is_nan x) eqn:?
      | Users.too_short _ => unfold Users.too_short
      | Users.one_of _ _ _ => unfold Users.one_of
      | Users.hash _ => unfold Users.hash
      | Transactions.conditions _ => unfold Transactions.conditions
      | if ?c then _ else _ => destruct c eqn:?
      | match ?x with _ => _ end => destruct x eqn:?
      end
  end.

Ltac handler_cases :=
  repeat (cbn [handle bind reject_if int_or found eval fst snd]; handler_step);
  cbn [handle bind reject_if int_or found eval fst snd].

Ltac unfold_negations :=
  repeat match goal with
         | H : negb _ = true |- _ => apply negb_true_iff in H
         | H : negb _ = false |- _ => apply negb_false_iff in H
         end.

Ltac split_ifs :=
  repeat match goal with
         | |- context [if ?c then _ else _] => destruct c
         end.

(** A closed statement settled by running the definitions. *)
Ltac conjuncts :=
  repeat match goal with |- _ /\ _ => split end.

Ltac by_computation := intros; vm_compute; conjuncts; reflexivity.

(** ** Queries *)

Section Queries.
Context {A : Type}.

Lemma find_by_update (key : A -> Z) n (f : A -> A) rows :
  (forall r, key (f r) = key r) ->
  find_by key n (update_where key n f rows)
  = option_map f (find_by key n rows).
Proof.
  intros Hf. unfold find_by, update_where.
  induction rows as [|r rows IH]; [reflexivity|].
  cbn. destruct (key r =? n) eqn:E.
  - rewrite Hf, E. reflexivity.
  - rewrite E. exact IH.
Qed.

Lemma find_by_map (key : A -> Z) n (f : A -> A) rows :
  (forall r, key (f r) = key r) ->
  find_by key n (map f rows) = option_map f (find_by key n rows).
Proof.
  intros Hf. unfold find_by.
  induction rows as [|r rows IH]; [reflexivity|].
  cbn. rewrite Hf. destruct (key r =? n); [reflexivity|exact IH].
Qed.

Lemma Forall_update (P : A -> Prop) key n f (l : list A) :
  (forall a, P a -> P (f a)) -> Forall P l -> Forall P (update_where key n f l).
Proof.
  intros Hf Hl. unfold update_where. apply Forall_map.
  eapply Forall_impl; [|exact Hl]. intros a Ha. cbn.
  destruct (key a =? n); auto.
Qed.

Lemma Forall_delete (P : A -> Prop) key n (l : list A) :
  Forall P l -> Forall P (delete_where key n l).
Proof.
  intros Hl. unfold delete_where. apply Forall_forall. intros a Ha.
  apply filter_In in Ha. rewrite Forall_forall in Hl. now apply Hl.
Qed.

Variable key : A -> string.

Let desc (a b : A) : Prop := String.leb (key b) (key a) = true.

Lemma insert_desc_In x y l :
  In y (insert_desc key x l) <-> y = x \/ In y l.
Proof.
  induction l as [|z l IH]; cbn.
  - intuition.
  - destruct (String.leb (key z) (key x)); cbn; rewrite ?IH; intuition.
Qed.

Lemma orderBy_desc_In y l : In y (orderBy_desc key l) <-> In y l.
Proof.
  unfold orderBy_desc. induction l as [|x l IH]; cbn; [tauto|].
  rewrite insert_desc_In, IH. intuition.
Qed.

Lemma insert_desc_HdRel a x l :
  desc a x -> HdRel desc a l -> HdRel desc a (insert_desc key x l).
Proof.
  intros Hx Hl. destruct l as [|z l]; cbn; [now constructor|].
  destruct (String.leb (key z) (key x)); constructor; auto.
  now inversion Hl.
Qed.

Lemma insert_desc_Sorted x l :
  Sorted desc l -> Sorted desc (insert_desc key x l).
Proof.
  induction 1 as [|z l Hl IH Hz]; cbn; [repeat constructor|].
  destruct (String.leb (key z) (key x)) eqn:E.
  - constructor; [now constructor|]. constructor. exact E.
  - constructor; [exact IH|].
    apply insert_desc_HdRel; [|exact Hz].
    unfold desc. destruct (String.leb_total (key x) (key z)); congruence.
Qed.

Lemma orderBy_desc_Sorted l : Sorted desc (orderBy_desc key l).
Proof.
  unfold orderBy_desc. induction l as [|x l IH]; cbn; [constructor|].
  now apply insert_desc_Sorted.
Qed.

Lemma Sorted_skipn n l : Sorted desc l -> Sorted desc (skipn n l).
Proof.
  revert l. induction n as [|n IH]; intros l H; [exact H|].
  destruct l as [|x l]; [constructor|]. cbn. apply IH. now inversion H.
Qed.

Lemma Sorted_firstn n l : Sorted desc l -> Sorted desc (firstn n l).
Proof.
  intros H. revert n. induction H as [|x l Hl IH Hx]; intros n.
  - rewrite firstn_nil. constructor.
  - destruct n as [|n]; cbn; [constructor|].
    constructor; [apply IH|].
    destruct Hx; destruct n; cbn; constructor; assumption.
Qed.

Lemma paginate_Sorted limit offset l :
  Sorted desc l -> Sorted desc (paginate limit offset l).
Proof.
  intros H. unfold paginate.
  assert (Sorted desc
            match offset with
            | Some m => if 0 <? m then skipn (Z.to_nat m) l else l
            | None => l
            end) as H'.
  { destruct offset as [m|]; [|exact H].
    destruct (0 <? m); [now apply Sorted_skipn|exact H]. }
  destruct limit as [n|]; [|exact H'].
  destruct (0 <=? n); [now apply Sorted_firstn|exact H'].
Qed.

Lemma paginate_In limit offset (l : list A) y :
  In y (paginate limit offset l) -> In y l.
Proof.
  unfold paginate. intros H.
  assert (In y match offset with
               | Some m => if 0 <? m then skipn (Z.to_nat m) l else l
               | None => l
               end) as H'.
  { destruct limit as [n|]; [|exact H].
    destruct (0 <=? n); [|exact H].
    rewrite <- (firstn_skipn (Z.to_nat n)). apply in_or_app. now left. }
  destruct offset as [m|]; [|exact H'].
  destruct (0 <? m); [|exact H'].
  rewrite <- (firstn_skipn (Z.to_nat m) l). apply in_or_app. now right.
Qed.

Lemma paginate_length n offset (l : list A) :
  0 <= n ->
  (List.length (paginate (Math_min (Some n) 100) offset l)
   <= Z.to_nat (Z.min n 100))%nat.
Proof.
  intros Hn. unfold paginate, Math_min.
  replace (0 <=? Z.min n 100) with true by (symmetry; apply Z.leb_le; lia).
  rewrite length_firstn. apply Nat.le_min_l.
Qed.

End Queries.

(** ** Values on the wire *)

Section Wire.
Context {R : Runtime}.

Lemma sendable_json x : sendable x -> json_number x = JNum x.
Proof.
  intros (Hn & Hi & Hw). unfold json_number. rewrite Hn, Hi. cbn [orb].
  unfold wire in Hw. destruct (PrimFloat.eqb x 0); congruence.
Qed.

Lemma sendable_parse x : sendable x -> parseFloat (JNum x) = x.
Proof. intros (_ & _ & Hw). rewrite parseFloat_number. exact Hw. Qed.

Lemma assoc_absent k fs :
  existsb (String.eqb k) (map fst fs) = false ->
  assoc k (flat_map (fun kv => match json (snd kv) with
                               | JUndef => []
                               | w => [(fst kv, w)]
                               end) fs) = None.
Proof.
  induction fs as [|[k' e] fs IH]; [reflexivity|].
  cbn [map fst existsb flat_map snd]. intros H.
  apply orb_false_iff in H. destruct H as [Hk H].
  rewrite String.eqb_sym in Hk.
  destruct (json e); cbn [app assoc]; rewrite ?Hk; auto.
Qed.

(** Reading a field of an object that came as JSON, when the literal
    has no key twice. *)
Lemma prop_json k fs :
  distinct (map fst fs) = true ->
  prop k (json (JObj fs)) = json (prop k (JObj fs)).
Proof.
  cbn [json prop].
  induction fs as [|[k' e] fs IH]; [reflexivity|].
  cbn [map fst distinct flat_map snd assoc]. intros H.
  apply andb_true_iff in H. destruct H as [Hk H].
  apply negb_true_iff in Hk.
  destruct (String.eqb k' k) eqn:E.
  - apply String.eqb_eq in E. subst k'.
    destruct (json e) eqn:Ej; cbn [app assoc]; rewrite ?String.eqb_refl;
      try reflexivity.
    now rewrite assoc_absent.
  - destruct (json e); cbn [app assoc]; rewrite ?E; auto.
Qed.

Lemma balance_read u :
  sendable (user_balance u) ->
  prop "balance" (json (Users.excludePassword (user_row u)))
  = JNum (user_balance u).
Proof.
  intros H. unfold user_row.
  cbn [Users.excludePassword filter fst negb String.eqb Ascii.eqb Bool.eqb].
  rewrite prop_json by reflexivity.
  cbn [prop assoc String.eqb Ascii.eqb Bool.eqb json]. now apply sendable_json.
Qed.

Lemma order_id_read o :
  sendable (Z2float (order_id o)) ->
  prop "id" (json (order_row o)) = JNum (Z2float (order_id o)).
Proof.
  intros H. unfold order_row. rewrite prop_json by reflexivity.
  cbn [prop assoc String.eqb Ascii.eqb Bool.eqb json]. now apply sendable_json.
Qed.

(** *** The requests the flows send, when they succeed *)

Lemma Users_GET_found id n u db :
  String.eqb id "" = false ->
  parseInt (JStr id) = Some n ->
  find_by user_id n (users db) = Some u ->
  Users.GET [("id", id)] db
  = (respond (Users.excludePassword (user_row u)) 200, db).
Proof.
  intros Hid Hn Hu. unfold Users.GET, Users.GET_one.
  cbn [get assoc String.eqb Ascii.eqb Bool.eqb truthy].
  rewrite Hid. cbn [negb reject_if bind]. rewrite Hn. cbn [int_or bind].
  rewrite Hu. reflexivity.
Qed.

Lemma Users_PUT_balance id n u x now db :
  String.eqb id "" = false ->
  parseInt (JStr id) = Some n ->
  find_by user_id n (users db) = Some u ->
  sendable x -> PrimFloat.ltb x 0 = false ->
  Users.PUT [("id", id)] (JObj [("balance", JNum x)]) now db
  = (respond (Users.excludePassword
                (user_row (Users.apply_update (balance_only x) now u))) 200,
     set_users (update_where user_id n
                  (Users.apply_update (balance_only x) now) (users db))
               (next_user db) db).
Proof.
  intros Hid Hn Hu Hx Hpos.
  unfold Users.PUT. cbn [get assoc String.eqb Ascii.eqb Bool.eqb truthy].
  rewrite Hid. cbn [negb reject_if bind]. rewrite Hn. cbn [int_or bind].
  rewrite Hu. cbn [found bind destructure nullish].
  change (prop "name" (JObj [("balance", JNum x)])) with JUndef.
  change (prop "email" (JObj [("balance", JNum x)])) with JUndef.
  change (prop "password" (JObj [("balance", JNum x)])) with JUndef.
  change (prop "role" (JObj [("balance", JNum x)])) with JUndef.
  change (prop "status" (JObj [("balance", JNum x)])) with JUndef.
  change (prop "apiKey" (JObj [("balance", JNum x)])) with JUndef.
  change (prop "balance" (JObj [("balance", JNum x)])) with (JNum x).
  cbn [is_undefined bind]. unfold Users.bad_balance.
  rewrite (sendable_parse x Hx), Hpos.
  destruct Hx as (Hnan & _). rewrite Hnan.
  cbn [orb reject_if bind].
  rewrite find_by_update by reflexivity. rewrite Hu.
  reflexivity.
Qed.

Lemma Transactions_POST_ok request now db fu ty a bb ba desc uid oid :
  nullish request = false ->
  prop "userId" request = JNum fu -> truthy (JNum fu) = true ->
  parseInt (JNum fu) = Some uid ->
  prop "type" request = JStr ty ->
  includes Transactions.VALID_TRANSACTION_TYPES (JStr ty) = true ->
  String.eqb ty "" = false ->
  prop "amount" request = JNum a -> sendable a -> PrimFloat.eqb a 0 = false ->
  prop "balanceBefore" request = JNum bb -> sendable bb ->
  prop "balanceAfter" request = JNum ba -> sendable ba ->
  prop "description" request = JStr desc -> String.eqb desc "" = false ->
  (prop "orderId" request = JUndef /\ oid = None
   \/ exists fo, prop "orderId" request = JNum fo /\ parseInt (JNum fo) = oid
                 /\ oid <> None) ->
  let t := mkTransaction (next_transaction db) uid (trim ty) a bb ba
                         (trim desc) oid now in
  Transactions.POST request now db
  = (respond (transaction_row t) 201,
     set_transactions (transactions db ++ [t]) (next_transaction db + 1) db).
Proof.
  intros Hb Hu Htu Hpu Hty Hin Hne Ha Hsa Hnz Hbb Hsbb Hba Hsba Hd Hdne Ho t.
  unfold Transactions.POST, destructure. rewrite Hb.
  cbn [bind]. rewrite Hu, Hty, Ha, Hbb, Hba, Hd.
  rewrite Htu. cbn [negb reject_if bind truthy nullish strict_eq_zero].
  rewrite Hne, Hdne, Hin, Hnz. cbn [negb reject_if bind].
  rewrite Hpu. cbn [int_or bind].
  rewrite !sendable_parse by assumption.
  destruct Hsa as (Hna & _), Hsbb as (Hnbb & _), Hsba as (Hnba & _).
  unfold Transactions.not_null. rewrite Hna, Hnbb, Hnba.
  destruct Ho as [[Ho ->]|(fo & Ho & Hpo & Hsome)]; rewrite Ho.
  - reflexivity.
  - cbn [nullish negb andb]. rewrite Hpo.
    destruct oid; [|congruence]. reflexivity.
Qed.

Lemma Orders_POST_ok request now db fu fs link fq c uid sid q u s :
  nullish request = false ->
  prop "userId" request = JNum fu -> truthy (JNum fu) = true ->
  parseInt (JNum fu) = Some uid ->
  prop "serviceId" request = JNum fs -> truthy (JNum fs) = true ->
  parseInt (JNum fs) = Some sid ->
  prop "link" request = JStr link -> String.eqb link "" = false ->
  String.eqb (trim link) "" = false ->
  prop "quantity" request = JNum fq -> parseInt (JNum fq) = Some q ->
  (q <=? 0) = false ->
  prop "charge" request = JNum c -> sendable c -> PrimFloat.leb c 0 = false ->
  prop "status" request = JStr "PENDING" ->
  prop "startCount" request = JUndef -> prop "remains" request = JUndef ->
  prop "providerOrderId" request = JUndef ->
  find_by user_id uid (users db) = Some u ->
  find_by service_id sid (services db) = Some s ->
  let o := mkOrder (next_order db) uid sid (trim link) q c None None
                   "PENDING" None now now in
  Orders.POST request now db
  = (respond (order_row o) 201,
     set_orders (orders db ++ [o]) (next_order db + 1) db).
Proof.
  intros Hb Hu Htu Hpu Hs Hts Hps Hl Hln Hlt Hq Hpq Hqp Hc Hsc Hcp Hst Hsc' Hr Hp
         Hfu Hfs o.
  unfold Orders.POST, destructure. rewrite Hb. cbn [bind].
  rewrite Hu, Hs, Hl, Hq, Hc, Hst, Hsc', Hr, Hp.
  rewrite Htu, Hts. cbn [negb reject_if bind truthy is_string nullish orb].
  rewrite Hln, Hlt. cbn [negb reject_if bind orb].
  rewrite Hpu, Hps, Hpq. cbn [int_or bind]. rewrite Hqp.
  cbn [reject_if bind]. rewrite (sendable_parse c Hsc), Hcp.
  destruct Hsc as (Hnan & _). rewrite Hnan.
  cbn [orb reject_if bind String.eqb Ascii.eqb Bool.eqb negb eval method].
  change (toUpperCase "PENDING") with "PENDING".
  change (includes Orders.VALID_STATUSES (JStr "PENDING")) with true.
  cbn [negb reject_if bind]. rewrite Hfu, Hfs.
  reflexivity.
Qed.

Lemma Orders_PUT_status id n o now db :
  String.eqb id "" = false ->
  parseInt (JStr id) = Some n ->
  find_by order_id n (orders db) = Some o ->
  Orders.PUT [("id", id)] (JObj [("status", JStr "REFUNDED")]) now db
  = (respond (order_row (Orders.apply_updates (status_only "REFUNDED") now o))
             200,
     set_orders (update_where order_id n
                   (Orders.apply_updates (status_only "REFUNDED") now)
                   (orders db))
                (next_order db) db).
Proof.
  intros Hid Hn Ho.
  unfold Orders.PUT. cbn [get assoc String.eqb Ascii.eqb Bool.eqb truthy].
  rewrite Hid. cbn [negb reject_if bind]. rewrite Hn. cbn [int_or bind].
  rewrite Ho. cbn [found bind destructure nullish].
  change (prop "status" (JObj [("status", JStr "REFUNDED")]))
    with (JStr "REFUNDED").
  change (prop "startCount" (JObj [("status", JStr "REFUNDED")])) with JUndef.
  change (prop "remains" (JObj [("status", JStr "REFUNDED")])) with JUndef.
  change (prop "providerOrderId" (JObj [("status", JStr "REFUNDED")]))
    with JUndef.
  cbn [is_undefined nullish bind].
  change (toUpperCase "REFUNDED") with "REFUNDED".
  change (includes Orders.VALID_STATUSES (JStr "REFUNDED")) with true.
  cbn [negb reject_if bind].
  rewrite find_by_update by reflexivity. rewrite Ho.
  reflexivity.
Qed.

End Wire.

(** ** Who writes what *)

Section Frames.
Context {R : Runtime}.

Lemma others_keep_users r now db :
  to_users r = false -> users (snd (Server.serve now r db)) = users db.
Proof.
  destruct r; try discriminate; intros _; cbn [Server.serve].
  - unfold Users.me. destruct session; [|reflexivity].
    destruct (find_by _ _ _); reflexivity.
  - unfold Orders.GET, Orders.GET_one, Orders.GET_list.
    handler_cases; reflexivity.
  - unfold Orders.POST. handler_cases; reflexivity.
  - unfold Orders.PUT. handler_cases; reflexivity.
  - unfold Orders.DELETE. handler_cases; reflexivity.
  - unfold Transactions.GET, Transactions.GET_one, Transactions.GET_list.
    handler_cases; reflexivity.
  - unfold Transactions.POST. handler_cases; reflexivity.
  - unfold Transactions.DELETE. handler_cases; reflexivity.
Qed.


Lemma ledger_ignores_users request now db us n :
  Transactions.POST request now (set_users us n db)
  = (fst (Transactions.POST request now db),
     set_users us n (snd (Transactions.POST request now db))).
Proof.
  unfold Transactions.POST. handler_cases; reflexivity.
Qed.

Lemma orders_ignore_balances request now db f :
  Orders.POST request now (with_balances f db)
  = (fst (Orders.POST request now db),
     with_balances f (snd (Orders.POST request now db))).
Proof.
  unfold Orders.POST, with_balances.
  cbn [users set_users services orders next_order].
  repeat (cbn [handle bind reject_if int_or found eval fst snd option_map];
          first [ rewrite find_by_map by reflexivity;
                  match goal with
                  | |- context [find_by user_id ?n (users db)] =>
                      destruct (find_by user_id n (users db)) eqn:?
                  end
                | handler_step ]);
    reflexivity.
Qed.

End Frames.

(** ** Conservation *)

Section Conservation.
Context {R : Runtime}.


End Conservation.



(** ** Non-negativity *)

Section NonNegativity.
Context {R : Runtime}.

Lemma balance_ok_parsed v :
  Users.bad_balance v = false -> balance_ok (parseFloat v) = true.
Proof. unfold Users.bad_balance, balance_ok. now intros ->. Qed.

Lemma POST_keeps_balances_ok b now db :
  balances_ok db -> balances_ok (snd (Users.POST b now db)).
Proof.
  intros H. unfold Users.POST.
  handler_cases; try exact H;
    unfold balances_ok; cbn [users set_users];
    (apply Forall_app; split; [exact H|]);
    (constructor; [|constructor]); cbn [user_balance];
    match goal with
    | Hc : (negb (is_undefined ?v) && Users.bad_balance ?v)%bool = false
      |- _ =>
        destruct (is_undefined v); [reflexivity|];
        cbn [negb andb] in Hc; now apply balance_ok_parsed
    end.
Qed.

Lemma PUT_keeps_balances_ok q b now db :
  balances_ok db -> balances_ok (snd (Users.PUT q b now db)).
Proof.
  intros H. unfold Users.PUT.
  handler_cases; try exact H;
    unfold balances_ok; cbn [users set_users];
    (apply Forall_update; [|exact H]);
    intros account Hok;
    cbn [Users.apply_update user_balance Users.set_balance Users.or_keep];
    try exact Hok; now apply balance_ok_parsed.
Qed.

Lemma DELETE_keeps_balances_ok q db :
  balances_ok db -> balances_ok (snd (Users.DELETE q db)).
Proof.
  intros H. unfold Users.DELETE.
  handler_cases; try exact H.
  unfold balances_ok. cbn [users set_users]. now apply Forall_delete.
Qed.

Lemma GET_keeps_store q db : snd (Users.GET q db) = db.
Proof.
  unfold Users.GET, Users.GET_one, Users.GET_list.
  handler_cases; reflexivity.
Qed.

Lemma register_keeps_balances_ok email password name now db :
  balances_ok db ->
  balances_ok (snd (Users.register email password name now db)).
Proof.
  intros H. unfold Users.register.
  destruct (existsb _ _); [exact H|].
  unfold balances_ok. cbn [snd users set_users].
  apply Forall_app. split; [exact H|].
  constructor; [reflexivity|constructor].
Qed.

Lemma step_keeps_balances_ok op db :
  balances_ok db -> balances_ok (Server.step db op).
Proof.
  intros H. destruct op as [now [r|email password name]];
    unfold Server.step; cbn [fst snd].
  - destruct (to_users r) eqn:E.
    + destruct r; try discriminate; cbn [Server.serve].
      * now rewrite GET_keeps_store.
      * now apply POST_keeps_balances_ok.
      * now apply PUT_keeps_balances_ok.
      * now apply DELETE_keeps_balances_ok.
    + unfold balances_ok. now rewrite others_keep_users.
  - now apply register_keeps_balances_ok.
Qed.

(** C2 (amended): the transactions POST makes no balance check and has
    no InsufficientFunds error: its response and the entry it records
    are the same whatever the stored balances, which it leaves as they
    are.  Yet no history of operations makes a stored balance negative
    or NaN: from a store whose balances are numbers not below zero,
    every store reached has such balances, because the writers of the
    balance column (users POST, users PUT, register) refuse anything
    else. *)
Theorem stored_balance_never_negative (history : list (string * Server.Op))
  (db : Db) :
  balances_ok db ->
  balances_ok (Server.run history db)
  /\ (forall request now us n d,
        Transactions.POST request now (set_users us n d)
        = (fst (Transactions.POST request now d),
           set_users us n (snd (Transactions.POST request now d)))).
Proof.
  intros H. split.
  - revert db H. induction history as [|op history IH]; intros db H;
      [exact H|].
    cbn [Server.run fold_left]. apply IH. now apply step_keeps_balances_ok.
  - intros. apply ledger_ignores_users.
Qed.

End NonNegativity.

(** C2 as stated fails: Alice holds 2.00 and an ORDER entry of -2.50 is
    posted for her.  The entry would take her balance below zero, and
    the endpoint answers 201 and records it; her stored balance stays
    2.00. *)
Lemma overdraft_is_recorded :
  let db := Example.with_alice 2 in
  let request :=
    JObj [ ("userId", JNum 1); ("type", JStr "ORDER");
           ("amount", JNum (-2.5)); ("balanceBefore", JNum 2);
           ("balanceAfter", JNum (-0.5));
           ("description", JStr "Order #7 - Instagram Followers") ] in
  let result := Transactions.POST request "2024-05-01T10:00:02.000Z" db in
  overdraws db 1 (-2.5) = true
  /\ status (fst result) = 201
  /\ listEntries (snd result) 1
     = [ mkTransaction 1 1 "ORDER" (-2.5) 2 (-0.5)
           "Order #7 - Instagram Followers" None
           "2024-05-01T10:00:02.000Z" ]
  /\ getBalance (snd result) 1 = Some 2%float.
Proof. by_computation. Qed.

(** Alice holds 2.00; a PUT that would set her balance to -5 is refused
    and the balance stays a number that is not negative. *)
Lemma stored_balance_never_negative_witness :
  let history :=
    [ ("2024-05-01T09:30:00.000Z",
       Server.Call (Server.UsersPUT [("id", "1")]
                                    (JObj [("balance", JNum (-5))]))) ] in
  balances_ok (Example.with_alice 2)
  /\ balances_ok (Server.run history (Example.with_alice 2))
  /\ getBalance (Server.run history (Example.with_alice 2)) 1 = Some 2%float.
Proof.
  intros history.
  assert (H : balances_ok (Example.with_alice 2))
    by (constructor; [by_computation|constructor]).
  split; [exact H|].
  split; [|by_computation].
  exact (proj1 (stored_balance_never_negative history _ H)).
Defined.

(** ** Refunds *)

Section Refunds.
Context {R : Runtime}.

(** C3 (amended): the Refund button is shown only on rows whose status
    is PENDING or PROCESSING, but [handleRefund] itself reads no status
    and no endpoint answers InvalidState or AlreadyRefunded.  Every
    confirmed call whose requests succeed sets the stored balance to
    the balance read plus [order.charge], appends one REFUND entry of
    amount [order.charge] that references the order, and sets the
    order's status to REFUNDED, whatever that status was: a second call
    on the same row credits again and appends a second entry. *)
Theorem refund_credits_every_time (order : JsVal) (uid oid : Z) (c : float)
  (u : User) (o : Order) (t1 t2 t3 : string) (db : Db) :
  prop "userId" order = JNum (Z2float uid) ->
  prop "id" order = JNum (Z2float oid) ->
  prop "charge" order = JNum c ->
  travels uid -> travels oid ->
  find_by user_id uid (users db) = Some u ->
  find_by order_id oid (orders db) = Some o ->
  sendable (user_balance u) -> sendable c -> PrimFloat.eqb c 0 = false ->
  sendable (user_balance u + c) ->
  PrimFloat.ltb (user_balance u + c) 0 = false ->
  let after := snd (Client.handleRefund true order t1 t2 t3 db) in
  let entry :=
    mkTransaction (next_transaction db) uid "REFUND" c (user_balance u)
                  (user_balance u + c)
                  (trim ("Refund for order #" ++ toString (JNum (Z2float oid))))
                  (Some oid) t2 in
  getBalance after uid = Some (user_balance u + c)%float
  /\ transactions after = (transactions db ++ [entry])%list
  /\ refunds_of after oid = (refunds_of db oid ++ [entry])%list
  /\ status_of after oid = Some "REFUNDED".
Proof.
  intros Hpu Hpo Hpc (Hsu & Htu & Hnu & Hqu & Hiu) (Hso & Hto & Hno & Hqo & Hio)
         Hu Ho Hb Hc Hcz Hnb Hpos.
  unfold Client.handleRefund, Client.id_query. cbn [negb].
  rewrite Hpu, Hpo, Hpc.
  rewrite (Users_GET_found _ uid u db Hnu Hqu Hu).
  cbn [body fst respond].
  rewrite (balance_read u Hb).
  unfold Client.js_add. cbn [Client.stringy orb]. rewrite !toNumber_number.
  cbn [json flat_map snd fst app].
  rewrite !sendable_json by assumption.
  cbn [app].
  rewrite (Users_PUT_balance _ uid u _ t1 db Hnu Hqu Hu Hnb Hpos).
  erewrite Transactions_POST_ok with (oid := Some oid);
    [ | reflexivity | reflexivity | exact Htu | exact Hiu | reflexivity
      | reflexivity | reflexivity | reflexivity | exact Hc | exact Hcz
      | reflexivity | exact Hb | reflexivity | exact Hnb | reflexivity
      | reflexivity
      | right; eexists; split; [reflexivity|split; [exact Hio|discriminate]] ].
  change (trim "REFUND") with "REFUND".
  cbn [next_transaction set_users transactions].
  rewrite (Orders_PUT_status _ oid o t3); [ | exact Hno | exact Hqo | exact Ho ].
  cbn [snd].
  split; [|split; [|split]].
  - unfold getBalance. cbn [users set_orders set_transactions set_users].
    rewrite find_by_update by reflexivity. rewrite Hu. reflexivity.
  - reflexivity.
  - unfold refunds_of. cbn [transactions set_orders set_transactions].
    rewrite filter_app.
    cbn [filter tx_type tx_orderId String.eqb Ascii.eqb Bool.eqb andb].
    rewrite Z.eqb_refl. reflexivity.
  - unfold status_of. cbn [orders set_orders set_transactions set_users].
    rewrite find_by_update by reflexivity. rewrite Ho. reflexivity.
Qed.

End Refunds.

(** C3 as stated fails: Alice's order of 2.50 is refunded from one
    admin's table, which brings her balance back to 100.00 and marks the
    order REFUNDED.  A second admin, whose table still shows the order
    as PENDING, refunds the same row: the call succeeds, her balance
    becomes 102.50 and the ledger holds two REFUND entries for the
    order. *)
Lemma second_refund_credits_again :
  Client.refund_offered (Example.first_order Example.after_order) = true
  /\ status_of Example.after_refund 1 = Some "REFUNDED"
  /\ getBalance Example.after_refund 1 = Some 100%float
  /\ List.length (refunds_of Example.after_refund 1) = 1%nat
  /\ fst (Client.handleRefund true (Example.first_order Example.after_order)
            "2024-05-01T11:05:00.000Z" "2024-05-01T11:05:01.000Z"
            "2024-05-01T11:05:02.000Z" Example.after_refund)
     = Client.ToastSuccess "Order refunded successfully"
  /\ getBalance Example.after_second_refund 1 = Some 102.5%float
  /\ List.length (refunds_of Example.after_second_refund 1) = 2%nat.
Proof. by_computation. Qed.

(** The second refund of that story: the order is already REFUNDED in
    the store, and the call credits 2.50 again. *)
Lemma refund_credits_every_time_witness :
  status_of Example.after_refund 1 = Some "REFUNDED"
  /\ find_by user_id 1 (users Example.after_refund)
     = Some (Users.apply_update (balance_only 100) "2024-05-01T11:00:00.000Z"
               (Users.apply_update (balance_only 97.5)
                  "2024-05-01T10:00:01.000Z" (Example.alice 100)))
  /\ getBalance Example.after_second_refund 1 = Some (100 + 2.5)%float
  /\ List.length (refunds_of Example.after_second_refund 1)
     = S (List.length (refunds_of Example.after_refund 1))
  /\ status_of Example.after_second_refund 1 = Some "REFUNDED".
Proof.
  split; [by_computation|]. split; [by_computation|].
  destruct (find_by order_id 1 (orders Example.after_refund)) as [o|] eqn:Ho;
    [|vm_compute in Ho; discriminate Ho].
  destruct (refund_credits_every_time
              (Example.first_order Example.after_order) 1 1 2.5
              (Users.apply_update (balance_only 100) "2024-05-01T11:00:00.000Z"
                 (Users.apply_update (balance_only 97.5)
                    "2024-05-01T10:00:01.000Z" (Example.alice 100)))
              o "2024-05-01T11:05:00.000Z" "2024-05-01T11:05:01.000Z"
              "2024-05-01T11:05:02.000Z" Example.after_refund)
    as (H1 & _ & H3 & H4);
    [ first [exact Ho | by_computation] .. | ].
  split; [exact H1|]. split; [|exact H4].
  change (refunds_of Example.after_second_refund 1)
    with (refunds_of
            (snd (Client.handleRefund true
                    (Example.first_order Example.after_order)
                    "2024-05-01T11:05:00.000Z" "2024-05-01T11:05:01.000Z"
                    "2024-05-01T11:05:02.000Z" Example.after_refund)) 1).
  rewrite H3, length_app. cbn [List.length]. apply Nat.add_1_r.
Defined.

(** ** Passwords stay on the server *)

Section Passwords.
Context {R : Runtime}.

Lemma public_user u :
  has_key "password" (json (Users.excludePassword (user_row u))) = false.
Proof.
  cbn. unfold json_number.
  split_ifs; destruct (user_apiKey u); reflexivity.
Qed.

Lemma public_users l :
  has_key "password"
    (json (JArr (map (fun u => Users.excludePassword (user_row u)) l)))
  = false.
Proof.
  induction l as [|u l IH]; [reflexivity|].
  change (has_key "password"
            (match json (Users.excludePassword (user_row u)) with
             | JUndef => JNull
             | w => w
             end)
          || has_key "password"
               (json (JArr (map (fun u => Users.excludePassword (user_row u))
                                l)))
          = false)%bool.
  rewrite IH, orb_false_r.
  pose proof (public_user u) as H.
  destruct (json (Users.excludePassword (user_row u))); auto.
Qed.

Lemma GET_hides q db : hides_password (Users.GET q db).
Proof.
  unfold hides_password, Users.GET, Users.GET_one, Users.GET_list.
  handler_cases; try reflexivity;
    solve [ apply public_user | apply public_users ].
Qed.

Lemma POST_hides b now db : hides_password (Users.POST b now db).
Proof.
  unfold hides_password, Users.POST.
  handler_cases; try reflexivity; apply public_user.
Qed.

Lemma PUT_hides q b now db : hides_password (Users.PUT q b now db).
Proof.
  unfold hides_password, Users.PUT.
  handler_cases; try reflexivity; apply public_user.
Qed.

Lemma DELETE_hides q db : hides_password (Users.DELETE q db).
Proof.
  unfold hides_password, Users.DELETE.
  handler_cases; try reflexivity.
  match goal with u : User |- _ => pose proof (public_user u) as H end.
  cbn in H |- *. now rewrite orb_false_r in *.
Qed.

Lemma me_hides s db : hides_password (Users.me s db).
Proof.
  unfold hides_password, Users.me.
  destruct s as [s|]; [|reflexivity].
  destruct (find_by user_id (Users.payload_id s) (users db)) as [u|];
    [|reflexivity].
  cbn. unfold json_number.
  split_ifs; destruct (user_apiKey u); reflexivity.
Qed.

(** C9: no response of the users endpoint (the GET of one user, the GET
    of a list, POST, PUT, DELETE) and no response of [/api/auth/me]
    contains a [password] field: whatever the store, the request and the
    runtime, the JSON the caller receives has no [password] key at any
    depth. *)
Theorem responses_hide_password (db : Db) :
  (forall q, hides_password (Users.GET q db))
  /\ (forall body now, hides_password (Users.POST body now db))
  /\ (forall q body now, hides_password (Users.PUT q body now db))
  /\ (forall q, hides_password (Users.DELETE q db))
  /\ (forall session, hides_password (Users.me session db)).
Proof.
  split; [|split; [|split; [|split]]]; intros.
  - apply GET_hides.
  - apply POST_hides.
  - apply PUT_hides.
  - apply DELETE_hides.
  - apply me_hides.
Qed.

End Passwords.

(** ** The zero amount *)

Section ZeroAmount.
Context {R : Runtime}.

(** C10: a transactions POST whose [amount] is the number 0 is rejected
    with status 400 and leaves the store as it was; when the request
    passes the checks that come first (userId, type, balanceBefore,
    balanceAfter and description present, type valid), the response is
    the INVALID_AMOUNT error.  So an entry created from a numeric amount
    [x] has [x] as its amount, and [x] is not zero. *)
Theorem zero_amount_rejected (request : JsVal) (now : string) (db : Db)
  (x : float) :
  prop "amount" request = JNum x ->
  (PrimFloat.eqb x 0 = true ->
     snd (Transactions.POST request now db) = db
     /\ status (fst (Transactions.POST request now db)) = 400
     /\ (truthy (prop "userId" request) = true ->
         truthy (prop "type" request) = true ->
         nullish (prop "balanceBefore" request) = false ->
         nullish (prop "balanceAfter" request) = false ->
         truthy (prop "description" request) = true ->
         includes Transactions.VALID_TRANSACTION_TYPES (prop "type" request)
         = true ->
         fst (Transactions.POST request now db) = Transactions.invalid_amount))
  /\ (status (fst (Transactions.POST request now db)) = 201 ->
      PrimFloat.eqb x 0 = false
      /\ exists t,
           transactions (snd (Transactions.POST request now db))
           = (transactions db ++ [t])%list
           /\ tx_amount t = x).
Proof.
  intros Hx.
  assert (Hb : nullish request = false)
    by (destruct request; try reflexivity; discriminate).
  unfold Transactions.POST. rewrite Hx.
  split.
  - intros Hz.
    handler_cases; unfold_negations; cbn [strict_eq_zero nullish] in *;
      try congruence;
      (split; [reflexivity|split; [reflexivity|]]);
      intros; try reflexivity; congruence.
  - handler_cases;
      cbn [strict_eq_zero status body respond bad_request not_found
           internal_error] in *;
      try discriminate.
    intros _. split; [assumption|].
    eexists. split; [reflexivity|].
    cbn. rewrite parseFloat_number.
    match goal with H : PrimFloat.eqb x 0 = false |- _ => now rewrite H end.
Qed.

End ZeroAmount.

(** A deposit of nothing into Alice's account is refused. *)
Lemma zero_amount_rejected_witness :
  let request :=
    JObj [ ("userId", JNum 1); ("type", JStr "DEPOSIT"); ("amount", JNum 0);
           ("balanceBefore", JNum 5); ("balanceAfter", JNum 5);
           ("description", JStr "Top up") ] in
  let db := Example.with_alice 5 in
  prop "amount" request = JNum 0
  /\ PrimFloat.eqb 0 0 = true
  /\ fst (Transactions.POST request "2024-05-02T08:00:00.000Z" db)
     = Transactions.invalid_amount
  /\ snd (Transactions.POST request "2024-05-02T08:00:00.000Z" db) = db.
Proof.
  intros request db.
  split; [reflexivity|]. split; [reflexivity|].
  destruct (zero_amount_rejected request "2024-05-02T08:00:00.000Z" db 0
              eq_refl) as [H _].
  destruct (H eq_refl) as (Hdb & _ & Hcode).
  split; [apply Hcode; reflexivity | exact Hdb].
Defined.

(** ** Placing an order *)

Section PlacingOrders.
Context {R : Runtime}.


Lemma POST_accepts_positive request now db :
  status (fst (Orders.POST request now db)) = 201 ->
  exists q o,
    parseInt (prop "quantity" request) = Some q /\ 0 < q
    /\ orders (snd (Orders.POST request now db)) = (orders db ++ [o])%list
    /\ order_quantity o = q
    /\ order_charge o = parseFloat (prop "charge" request)
    /\ PrimFloat.is_nan (order_charge o) = false
    /\ PrimFloat.leb (order_charge o) 0 = false.
Proof.
  unfold Orders.POST.
  handler_cases;
    cbn [status respond bad_request not_found internal_error];
    try discriminate; intros _.
  all: match goal with
       | H : (PrimFloat.is_nan _ || _)%bool = false |- _ =>
           apply orb_false_iff in H; destruct H
       end.
  all: do 2 eexists; split; [reflexivity|].
  all: split; [now apply Z.leb_gt|].
  all: split; [reflexivity|]; cbn [order_quantity order_charge]; auto.
Qed.


Lemma short_of_funds_sends_nothing service user link quantity t1 t2 t3 db :
  truthy user = true ->
  match parseInt (JStr quantity) with
  | Some q => service_minOrder service <= q <= service_maxOrder service
  | None => True
  end ->
  PrimFloat.ltb (toNumber (prop "balance" user))
                (Client.number_of (parseInt (JStr quantity)) / 1000
                 * service_rate service) = true ->
  Client.handleOrderSubmit (Some service) user link quantity t1 t2 t3 db
  = (Client.ToastError
       "Insufficient balance. Please add funds to your wallet.", db).
Proof.
  intros Hu Hq Hshort. unfold Client.handleOrderSubmit.
  rewrite Hu. cbn [negb].
  destruct (parseInt (JStr quantity)) as [q|].
  - replace ((q <? service_minOrder service)
             || (service_maxOrder service <? q))%bool with false.
    + now rewrite Hshort.
    + symmetry. apply orb_false_iff. split; apply Z.ltb_ge; lia.
  - now rewrite Hshort.
Qed.

(** C4 (amended): [handleOrderSubmit] sends no request, so the store
    (the orders table included) stays exactly as it was and the user is
    told "Insufficient balance", when the charge it computed exceeds the
    balance of the user object the page holds.  The orders POST
    endpoint never reads a balance: its response and the order row it
    creates are the same whatever the stored balances.  Nothing rolls an
    order back and no response is InsufficientFunds. *)
Theorem order_placed_without_reading_balance (service : Service)
  (user : JsVal) (link quantity : string) (t1 t2 t3 : string) (db : Db) :
  truthy user = true ->
  match parseInt (JStr quantity) with
  | Some q => service_minOrder service <= q <= service_maxOrder service
  | None => True
  end ->
  PrimFloat.ltb (toNumber (prop "balance" user))
                (Client.number_of (parseInt (JStr quantity)) / 1000
                 * service_rate service) = true ->
  Client.handleOrderSubmit (Some service) user link quantity t1 t2 t3 db
  = (Client.ToastError
       "Insufficient balance. Please add funds to your wallet.", db)
  /\ (forall request now f d,
        Orders.POST request now (with_balances f d)
        = (fst (Orders.POST request now d),
           with_balances f (snd (Orders.POST request now d)))).
Proof.
  intros Hu Hq Hshort. split.
  - now apply short_of_funds_sends_nothing.
  - intros. apply orders_ignore_balances.
Qed.


(** C6 (amended): the orders POST endpoint records the charge the
    request carries: [parseFloat] of its [charge] field, accepted when it
    is a number above zero; it computes nothing from quantity and rate.
    [handleOrderSubmit] computes that charge as
    [quantity / 1000 * service.rate] in double-precision arithmetic and
    rounds nothing: when its three requests succeed the new order's
    charge is that product as computed, the stored balance becomes the
    page's balance minus the charge, and one ORDER entry records the
    amount [-charge] with the balance before and after.  With rate 2.50
    per 1000 and quantity 1000 the charge is exactly 2.50 and a balance
    of 100.00 becomes 97.50, with one ORDER entry recording
    balanceBefore = 100.00 and balanceAfter = 97.50. *)
Theorem order_charge_is_unrounded (service s : Service) (user : JsVal)
  (link quantity : string) (q uid : Z) (b : float) (u : User)
  (t1 t2 t3 : string) (db : Db) :
  let charge := (Z2float q / 1000 * service_rate service)%float in
  let sid := service_id service in
  let oid := next_order db in
  truthy user = true ->
  prop "id" user = JNum (Z2float uid) -> travels uid ->
  prop "balance" user = JNum b -> sendable b ->
  parseInt (JStr quantity) = Some q ->
  service_minOrder service <= q <= service_maxOrder service -> 0 < q ->
  sendable (Z2float q) -> parseInt (JNum (Z2float q)) = Some q ->
  travels sid -> travels oid ->
  String.eqb link "" = false -> String.eqb (trim link) "" = false ->
  find_by user_id uid (users db) = Some u ->
  find_by service_id sid (services db) = Some s ->
  sendable charge -> PrimFloat.leb charge 0 = false ->
  PrimFloat.ltb b charge = false ->
  sendable (- charge) -> PrimFloat.eqb (- charge) 0 = false ->
  sendable (b - charge) -> PrimFloat.ltb (b - charge) 0 = false ->
  let after :=
    snd (Client.handleOrderSubmit (Some service) user link quantity
                                  t1 t2 t3 db) in
  (orders after
   = (orders db
      ++ [mkOrder oid uid sid (trim link) q charge None None "PENDING" None
                  t1 t1])%list
   /\ getBalance after uid = Some (b - charge)%float
   /\ transactions after
      = (transactions db
         ++ [mkTransaction (next_transaction db) uid "ORDER" (- charge) b
               (b - charge)
               (trim ("Order #" ++ toString (JNum (Z2float oid)) ++ " - "
                      ++ service_name service))
               (Some oid) t3])%list)
  /\ (forall request now d,
        status (fst (Orders.POST request now d)) = 201 ->
        exists o,
          orders (snd (Orders.POST request now d)) = (orders d ++ [o])%list
          /\ order_charge o = parseFloat (prop "charge" request)
          /\ PrimFloat.is_nan (order_charge o) = false
          /\ PrimFloat.leb (order_charge o) 0 = false)
  /\ scenario.
Proof.
  intros charge sid oid Hus Hid (Hsu & Htu & Hnu & Hqu & Hiu) Hbal Hsb Hq
         [Hmin Hmax] Hpos Hsq Hpq (Hss & Hts & Hns & Hqs & His)
         (Hso & Hto & Hno & Hqo & Hio) Hl Hlt Hu Hs Hsc Hcp Hafford
         Hsn Hnz Hsnb Hnbp.
  split; [|split].
  2:{ intros request now d H.
      destruct (POST_accepts_positive request now d H)
        as (n & o & _ & _ & Ho & _ & Hc & Hnan & Hp).
      exists o. auto. }
  2:{ unfold scenario. by_computation. }
  unfold Client.handleOrderSubmit, Client.id_query.
  rewrite Hus, Hq, Hid, Hbal. cbn [negb].
  replace (q <? service_minOrder service) with false
    by (symmetry; apply Z.ltb_ge; lia).
  replace (service_maxOrder service <? q) with false
    by (symmetry; apply Z.ltb_ge; lia).
  cbn [orb Client.number_of]. rewrite toNumber_number.
  fold charge. rewrite Hafford.
  cbn [json flat_map snd fst app].
  fold sid. rewrite !sendable_json by assumption. cbn [app].
  erewrite Orders_POST_ok with (u := u) (s := s);
    [ | reflexivity | reflexivity | exact Htu | exact Hiu | reflexivity
      | exact Hts | exact His | reflexivity | exact Hl | exact Hlt
      | reflexivity | exact Hpq | apply Z.leb_gt; exact Hpos
      | reflexivity | exact Hsc | exact Hcp | reflexivity | reflexivity
      | reflexivity | reflexivity | exact Hu | exact Hs ].
  change (ok (respond _ 201)) with true. cbn [negb body respond fst].
  rewrite order_id_read by exact Hso.
  cbn [order_id json]. fold oid.
  rewrite !sendable_json by assumption. cbn [app].
  assert (Hu1 : find_by user_id uid
                  (users (set_orders
                            (orders db ++
                             [mkOrder oid uid sid (trim link) q charge None
                                None "PENDING" None t1 t1])
                            (oid + 1) db)) = Some u) by exact Hu.
  rewrite (Users_PUT_balance _ uid u _ t2 _ Hnu Hqu Hu1 Hsnb Hnbp).
  erewrite Transactions_POST_ok with (oid := Some oid);
    [ | reflexivity | reflexivity | exact Htu | exact Hiu | reflexivity
      | reflexivity | reflexivity | reflexivity | exact Hsn | exact Hnz
      | reflexivity | exact Hsb | reflexivity | exact Hsnb | reflexivity
      | reflexivity
      | right; eexists; split; [reflexivity|split; [exact Hio|discriminate]] ].
  change (trim "ORDER") with "ORDER".
  cbn [snd next_transaction set_users set_orders transactions orders users].
  split; [reflexivity|split; [|reflexivity]].
  unfold getBalance. cbn [users set_orders set_transactions set_users].
  rewrite find_by_update by reflexivity. rewrite Hu. reflexivity.
Qed.

End PlacingOrders.

(** C4 as stated fails: Alice holds 2.00 and an order charged 2.50 is
    posted for her.  The charge would take her balance below zero, yet
    the endpoint answers 201 and the order row is in the store.  The
    same happens through the page when it still holds the balance of
    100.00 it loaded earlier: the order is placed and her stored balance
    is overwritten with 97.50. *)
Lemma order_persists_without_funds :
  let db := Example.with_alice 2 in
  let request :=
    JObj [ ("userId", JNum 1); ("serviceId", JNum 1);
           ("link", JStr "https://instagram.com/alice");
           ("quantity", JNum 1000); ("charge", JNum 2.5);
           ("status", JStr "PENDING") ] in
  let result := Orders.POST request "2024-05-01T10:00:00.000Z" db in
  let placed :=
    Client.handleOrderSubmit (Some Example.followers)
      (Example.dashboard_user (Example.with_alice 100))
      "https://instagram.com/alice" "1000" "2024-05-01T10:00:00.000Z"
      "2024-05-01T10:00:01.000Z" "2024-05-01T10:00:02.000Z" db in
  overdraws db 1 (-2.5) = true
  /\ orders db = []
  /\ status (fst result) = 201
  /\ map order_charge (orders (snd result)) = [2.5%float]
  /\ fst placed = Client.ToastSuccess "Order placed successfully!"
  /\ map order_charge (orders (snd placed)) = [2.5%float]
  /\ getBalance (snd placed) 1 = Some 97.5%float.
Proof. by_computation. Qed.

(** The page holds Alice's balance of 2.00: the order of 2.50 is not
    sent. *)
Lemma order_placed_without_reading_balance_witness :
  let db := Example.with_alice 2 in
  let user := Example.dashboard_user db in
  truthy user = true
  /\ prop "balance" user = JNum 2
  /\ Client.handleOrderSubmit (Some Example.followers) user
       "https://instagram.com/alice" "1000" "2024-05-01T10:00:00.000Z"
       "2024-05-01T10:00:01.000Z" "2024-05-01T10:00:02.000Z" db
     = (Client.ToastError
          "Insufficient balance. Please add funds to your wallet.", db).
Proof.
  intros db user.
  split; [by_computation|]. split; [by_computation|].
  refine (proj1 (order_placed_without_reading_balance Example.followers user
                   "https://instagram.com/alice" "1000"
                   "2024-05-01T10:00:00.000Z" "2024-05-01T10:00:01.000Z"
                   "2024-05-01T10:00:02.000Z" db _ _ _)).
  - by_computation.
  - vm_compute. split; discriminate.
  - by_computation.
Defined.



(** C6 as stated fails: 1234 likes at 0.99 per 1000 are charged
    1.22166, the product as the page computed it; rounded half-up to two
    decimals the charge would be 1.22. *)
Lemma charge_is_not_rounded :
  let placed :=
    snd (Client.handleOrderSubmit (Some Example.likes)
           (Example.dashboard_user (Example.with_alice 100))
           "https://instagram.com/p/1" "1234" "2024-05-01T10:00:00.000Z"
           "2024-05-01T10:00:01.000Z" "2024-05-01T10:00:02.000Z"
           (Example.with_alice 100)) in
  map order_charge (orders placed) = [1.22166%float]
  /\ charge_of_spec 1234 (service_rate Example.likes) = Some 1.22%float
  /\ PrimFloat.eqb 1.22166 1.22 = false
  /\ getBalance placed 1 = Some 98.77834%float.
Proof. by_computation. Qed.

(** The scenario of the specification, from the general statement. *)
Lemma order_charge_is_unrounded_witness :
  let db := Example.with_alice 100 in
  let user := Example.dashboard_user db in
  prop "balance" user = JNum 100
  /\ (Z2float 1000 / 1000 * service_rate Example.followers)%float = 2.5%float
  /\ orders Example.after_order
     = [ mkOrder 1 1 1 "https://instagram.com/alice" 1000 2.5 None None
                 "PENDING" None "2024-05-01T10:00:00.000Z"
                 "2024-05-01T10:00:00.000Z" ]
  /\ getBalance Example.after_order 1 = Some (100 - 2.5)%float
  /\ map tx_balanceBefore (transactions Example.after_order) = [100%float]
  /\ map tx_balanceAfter (transactions Example.after_order)
     = [(100 - 2.5)%float].
Proof.
  intros db user.
  split; [by_computation|]. split; [by_computation|].
  destruct (order_charge_is_unrounded Example.followers Example.followers user
              "https://instagram.com/alice" "1000" 1000 1 100
              (Example.alice 100) "2024-05-01T10:00:00.000Z"
              "2024-05-01T10:00:01.000Z" "2024-05-01T10:00:02.000Z" db)
    as ((Ho & Hb & Ht) & _);
    [ first [ by_computation | vm_compute; split; discriminate
            | vm_compute; reflexivity ] .. | ].
  change (snd (Client.handleOrderSubmit (Some Example.followers) user
                 "https://instagram.com/alice" "1000"
                 "2024-05-01T10:00:00.000Z" "2024-05-01T10:00:01.000Z"
                 "2024-05-01T10:00:02.000Z" db))
    with Example.after_order in Ho, Hb, Ht.
  split; [rewrite Ho; by_computation|].
  split; [rewrite Hb; by_computation|].
  rewrite Ht. split; by_computation.
Defined.

(** ** Listing *)

Section Listing.
Context {R : Runtime}.

Lemma rows_of_list {A : Type} (f : A -> JsVal) (rows : list A) :
  count (respond (JArr (map f rows)) 200) = List.length rows.
Proof.
  unfold count. cbn [body respond json]. now rewrite !length_map.
Qed.

(** C8: a list of ledger entries comes newest first, and every entry in
    it passes the filters of the request.  When the transactions GET
    answers a list request with 200, the body is the JSON of rows of the
    ledger that are in descending order of [createdAt]; when a [userId],
    a [type] or an [orderId] filter is given, every row has that
    account, that kind, that related order. *)
Theorem list_is_newest_first_and_filtered (q : Query) (db : Db) :
  truthy (get "id" q) = false ->
  status (fst (Transactions.GET q db)) = 200 ->
  exists rows,
    body (fst (Transactions.GET q db))
    = json (JArr (map transaction_row rows))
    /\ newest_first rows
    /\ (forall t, In t rows -> In t (transactions db))
    /\ (forall account,
          truthy (get "userId" q) = true ->
          parseInt (get "userId" q) = Some account ->
          forall t, In t rows -> tx_userId t = account)
    /\ (forall kind,
          get "type" q = JStr kind -> kind <> "" ->
          forall t, In t rows -> tx_type t = kind)
    /\ (forall order,
          truthy (get "orderId" q) = true ->
          parseInt (get "orderId" q) = Some order ->
          forall t, In t rows -> tx_orderId t = Some order).
Proof.
  intros Hid. unfold Transactions.GET. rewrite Hid.
  unfold Transactions.GET_list, Transactions.conditions.
  handler_cases; cbn [status respond bad_request]; try discriminate; intros _;
    (eexists; split; [reflexivity|]);
    (split; [apply paginate_Sorted, orderBy_desc_Sorted|]);
    (split; [intros t Ht; apply paginate_In, orderBy_desc_In, filter_In in Ht;
             tauto|]).
  all: split; [|split].
  all: try (intros account Hu Hp t Ht; try discriminate Hu;
            injection Hp as <-;
            apply paginate_In, orderBy_desc_In, filter_In in Ht;
            destruct Ht as [_ Ht]; rewrite !andb_true_iff in Ht;
            now apply Z.eqb_eq).
  all: try (intros order Ho Hp t Ht; try discriminate Ho;
            injection Hp as <-;
            apply paginate_In, orderBy_desc_In, filter_In in Ht;
            destruct Ht as [_ Ht]; rewrite !andb_true_iff in Ht;
            destruct (tx_orderId t); [|intuition discriminate];
            f_equal; now apply Z.eqb_eq).
  all: intros kind Hk Hne t Ht;
    match goal with
    | H : truthy (get "type" _) = _ |- _ =>
        rewrite Hk in H; cbn [truthy] in H
    end;
    try (unfold_negations;
         match goal with
         | H : String.eqb kind "" = true |- _ =>
             apply String.eqb_eq in H; contradiction
         end);
    apply paginate_In, orderBy_desc_In, filter_In in Ht;
    destruct Ht as [_ Ht]; rewrite !andb_true_iff in Ht;
    rewrite Hk, toString_string in Ht; now apply String.eqb_eq.
Qed.

Lemma transactions_page q db n :
  parseInt (coalesce (get "limit" q) (JStr "10")) = Some n -> 0 <= n ->
  (count (fst (Transactions.GET q db)) <= Z.to_nat (Z.min n 100))%nat.
Proof.
  intros Hl Hn.
  unfold Transactions.GET, Transactions.GET_one, Transactions.GET_list,
    Transactions.conditions.
  rewrite Hl.
  handler_cases; try apply Nat.le_0_l;
    rewrite rows_of_list; now apply paginate_length.
Qed.

Lemma orders_page q db n :
  parseInt (coalesce (get "limit" q) (JStr "10")) = Some n -> 0 <= n ->
  (count (fst (Orders.GET q db)) <= Z.to_nat (Z.min n 100))%nat.
Proof.
  intros Hl Hn.
  unfold Orders.GET, Orders.GET_one, Orders.GET_list.
  rewrite Hl.
  handler_cases; try apply Nat.le_0_l;
    rewrite rows_of_list; now apply paginate_length.
Qed.

Lemma users_page q db n :
  parseInt (coalesce (get "limit" q) (JStr "10")) = Some n -> 0 <= n ->
  (count (fst (Users.GET q db)) <= Z.to_nat (Z.min n 100))%nat.
Proof.
  intros Hl Hn.
  unfold Users.GET, Users.GET_one, Users.GET_list.
  rewrite Hl.
  handler_cases; try apply Nat.le_0_l;
    rewrite rows_of_list; now apply paginate_length.
Qed.

(** The page size is capped when the limit is a number that is not
    negative: a list request whose [limit] (10 when absent) parses to
    [n >= 0] returns at most [min n 100] rows, from each of the three
    list endpoints. *)
Theorem page_size_capped (q : Query) (db : Db) (n : Z) :
  parseInt (coalesce (get "limit" q) (JStr "10")) = Some n -> 0 <= n ->
  (count (fst (Transactions.GET q db)) <= Z.to_nat (Z.min n 100))%nat
  /\ (count (fst (Orders.GET q db)) <= Z.to_nat (Z.min n 100))%nat
  /\ (count (fst (Users.GET q db)) <= Z.to_nat (Z.min n 100))%nat.
Proof.
  intros Hl Hn. split; [|split].
  - now apply transactions_page.
  - now apply orders_page.
  - now apply users_page.
Qed.

(** Without a [limit] the page holds at most 10 rows. *)
Theorem default_page_size (q : Query) (db : Db) :
  get "limit" q = JNull -> parseInt (JStr "10") = Some 10 ->
  (count (fst (Transactions.GET q db)) <= 10)%nat
  /\ (count (fst (Orders.GET q db)) <= 10)%nat
  /\ (count (fst (Users.GET q db)) <= 10)%nat.
Proof.
  intros Hl Hten.
  assert (H : parseInt (coalesce (get "limit" q) (JStr "10")) = Some 10)
    by (rewrite Hl; exact Hten).
  split; [|split].
  - now apply (transactions_page q db 10).
  - now apply (orders_page q db 10).
  - now apply (users_page q db 10).
Qed.

End Listing.

(** C7: the cap does not hold for every request.  A ledger of 150
    entries is listed whole when the request asks for [limit=-1], and
    also when the limit is empty or is not a number: [Math.min] passes a
    negative number and NaN through, and the query is then unbounded. *)
Lemma negative_limit_is_unbounded :
  let db := Example.ledger_of 150 in
  count (fst (Transactions.GET [("limit", "-1")] db)) = 150%nat
  /\ count (fst (Transactions.GET [("limit", "")] db)) = 150%nat
  /\ count (fst (Transactions.GET [("limit", "all")] db)) = 150%nat
  /\ count (fst (Transactions.GET [("limit", "1000")] db)) = 100%nat
  /\ count (fst (Transactions.GET [] db)) = 10%nat.
Proof. by_computation. Qed.

(** Alice's REFUND entries after the two refunds, listed. *)
Lemma list_is_newest_first_and_filtered_witness :
  let q := [("userId", "1"); ("type", "REFUND")] in
  let db := Example.after_second_refund in
  truthy (get "id" q) = false
  /\ status (fst (Transactions.GET q db)) = 200
  /\ exists rows,
       body (fst (Transactions.GET q db))
       = json (JArr (map transaction_row rows))
       /\ newest_first rows
       /\ (forall t, In t rows -> tx_userId t = 1 /\ tx_type t = "REFUND").
Proof.
  intros q db.
  split; [by_computation|]. split; [by_computation|].
  destruct (list_is_newest_first_and_filtered q db)
    as (rows & Hbody & Hsorted & _ & Hu & Hk & _); [by_computation .. | ].
  exists rows. split; [exact Hbody|]. split; [exact Hsorted|].
  intros t Ht. split.
  - apply Hu; [by_computation|by_computation|exact Ht].
  - apply (Hk "REFUND"); [by_computation|discriminate|exact Ht].
Defined.

(** A thousand rows are asked of a ledger of 150: a hundred come. *)
Lemma page_size_capped_witness :
  let q := [("limit", "1000")] in
  parseInt (coalesce (get "limit" q) (JStr "10")) = Some 1000
  /\ (count (fst (Transactions.GET q (Example.ledger_of 150))) <= 100)%nat.
Proof.
  intros q. split; [by_computation|].
  destruct (page_size_capped q (Example.ledger_of 150) 1000) as [H _];
    [by_computation|discriminate|exact H].
Defined.

(** No limit is asked of a ledger of 150: ten rows come at most. *)
Lemma default_page_size_witness :
  get "limit" [] = JNull
  /\ (count (fst (Transactions.GET [] (Example.ledger_of 150))) <= 10)%nat.
Proof.
  split; [reflexivity|].
  destruct (default_page_size [] (Example.ledger_of 150)) as [H _];
    [reflexivity|by_computation|exact H].
Defined.
